(** * hpccm.building_blocks.generic_cmake

    A shallow embedding of the [generic_cmake] building block
    (src/hpccm/building_blocks/generic_cmake.py): the constructor
    [__init__], the command assembly [__setup], the packaging
    [__instructions] and the runtime projection [runtime], together with
    the parts of Python's [posixpath] and [sorted] they call.

    Python values are modelled as follows.
    - a [str] is a [string]; an attribute that holds a [str] or [None] is a
      [pystr] ([option string]); truthiness of such a value is [truthy];
    - a [dict] of strings is an association list in insertion order;
    - a raised exception is the [Raise] case of [result];
    - the attribute updates of [self] are explicit record updates. *)

From Stdlib Require Import String Ascii.
From stdpp Require Import base list strings sorting.

Local Open Scope string_scope.
Local Open Scope list_scope.

(** ** Python strings *)

Module PyStr.

(** A [str] or [None]. *)
Definition pystr := option string.

(** [if v:] for a value that is a [str] or [None]: the string when it is
    a non-empty string. *)
Definition truthy (v : pystr) : option string :=
  match v with
  | Some EmptyString => None
  | Some s => Some s
  | None => None
  end.

(** ['{}'.format(v)] for a [str] or [None]. *)
Definition format (v : pystr) : string :=
  match v with
  | Some s => s
  | None => "None"
  end.

Definition nl : string := String (ascii_of_nat 10) EmptyString.

(** [sep.join(items)]. *)
Definition join (sep : string) (items : list string) : string :=
  String.concat sep items.

(** [a <= b] on [str]: lexicographic on the code units. *)
Fixpoint leb (a b : string) : bool :=
  match a, b with
  | EmptyString, _ => true
  | String _ _, EmptyString => false
  | String x a', String y b' =>
      if (N_of_ascii x <? N_of_ascii y)%N then true
      else if (N_of_ascii x =? N_of_ascii y)%N then leb a' b'
      else false
  end.

Definition le (a b : string) : Prop := leb a b = true.

Lemma leb_refl a : leb a a = true.
Proof.
  induction a as [|x a IH]; simpl; [done|].
  rewrite N.ltb_irrefl, N.eqb_refl. exact IH.
Qed.

Lemma leb_total a b : leb a b = true ∨ leb b a = true.
Proof.
  revert b. induction a as [|x a IH]; intros [|y b]; simpl; auto.
  destruct (N.ltb_spec (N_of_ascii x) (N_of_ascii y)) as [Hxy|Hxy]; [auto|].
  destruct (N.ltb_spec (N_of_ascii y) (N_of_ascii x)) as [Hyx|Hyx]; [auto|].
  assert (N_of_ascii x = N_of_ascii y) as -> by lia.
  rewrite N.eqb_refl. apply IH.
Qed.

Lemma leb_antisym a b : leb a b = true → leb b a = true → a = b.
Proof.
  revert b. induction a as [|x a IH]; intros [|y b]; simpl; try done.
  destruct (N.ltb_spec (N_of_ascii x) (N_of_ascii y)) as [Hxy|Hxy].
  - destruct (N.ltb_spec (N_of_ascii y) (N_of_ascii x)); [lia|].
    destruct (N.eqb_spec (N_of_ascii y) (N_of_ascii x)); [lia|done].
  - destruct (N.eqb_spec (N_of_ascii x) (N_of_ascii y)) as [Heq|]; [|done].
    rewrite Heq, N.ltb_irrefl, N.eqb_refl. intros Hab Hba.
    assert (x = y) as ->.
    { rewrite <- (ascii_N_embedding x), <- (ascii_N_embedding y). by f_equal. }
    f_equal. by apply IH.
Qed.

Lemma leb_trans a b c : leb a b = true → leb b c = true → leb a c = true.
Proof.
  revert b c. induction a as [|x a IH]; intros [|y b] [|z c]; simpl; try done.
  destruct (N.ltb_spec (N_of_ascii x) (N_of_ascii y)) as [Hxy|Hxy].
  - intros _.
    destruct (N.ltb_spec (N_of_ascii y) (N_of_ascii z)) as [Hyz|Hyz].
    + intros _. destruct (N.ltb_spec (N_of_ascii x) (N_of_ascii z)); [done|lia].
    + destruct (N.eqb_spec (N_of_ascii y) (N_of_ascii z)); [|done].
      intros _. destruct (N.ltb_spec (N_of_ascii x) (N_of_ascii z)); [done|lia].
  - destruct (N.eqb_spec (N_of_ascii x) (N_of_ascii y)) as [Heq|]; [|done].
    rewrite Heq. intros Hab.
    destruct (N.ltb_spec (N_of_ascii y) (N_of_ascii z)); [done|].
    destruct (N.eqb_spec (N_of_ascii y) (N_of_ascii z)); [|done].
    by apply IH.
Qed.

Global Instance le_dec a b : Decision (le a b).
Proof. unfold le. apply _. Defined.
Global Instance le_refl : Reflexive le := leb_refl.
Global Instance le_trans : Transitive le := leb_trans.
Global Instance le_total : Total le := leb_total.
Global Instance le_antisymm : AntiSymm (=) le := leb_antisym.

End PyStr.
Export PyStr.

(** ** The functions of Python's [posixpath] the block calls *)

Module posixpath.

(** [posixpath.isabs(s)]: [s.startswith('/')]. *)
Definition isabs (s : string) : bool :=
  match s with
  | String c _ => bool_decide (c = "/"%char)
  | EmptyString => false
  end.

(** [path.endswith('/')]. *)
Fixpoint endswith_sep (s : string) : bool :=
  match s with
  | EmptyString => false
  | String c EmptyString => bool_decide (c = "/"%char)
  | String _ s' => endswith_sep s'
  end.

(** [posixpath.join(a, b)] on two [str]: an absolute [b] replaces [a];
    otherwise [b] is appended, after a separator unless [a] is empty or
    already ends with one. *)
Definition join (a b : string) : string :=
  if isabs b then b
  else if bool_decide (a = EmptyString) || endswith_sep a then a ++ b
  else a ++ "/" ++ b.

(** The scan behind [p[p.rfind('/') + 1:]]: [cur] is the text read since
    the last separator. *)
Fixpoint basename_from (cur p : string) : string :=
  match p with
  | EmptyString => cur
  | String c p' =>
      if bool_decide (c = "/"%char) then basename_from EmptyString p'
      else basename_from (cur ++ String c EmptyString) p'
  end.

(** [posixpath.basename(p)]: what follows the last ['/'] of [p]. *)
Definition basename (p : string) : string := basename_from EmptyString p.

Fixpoint has_sep (s : string) : bool :=
  match s with
  | EmptyString => false
  | String c s' => bool_decide (c = "/"%char) || has_sep s'
  end.

Lemma has_sep_app a b : has_sep (a ++ b) = has_sep a || has_sep b.
Proof. induction a as [|c a IH]; simpl; [done|]. by rewrite IH, orb_assoc. Qed.

Lemma basename_from_no_sep cur p :
  has_sep cur = false → has_sep (basename_from cur p) = false.
Proof.
  revert cur. induction p as [|c p IH]; intros cur Hcur; simpl; [done|].
  case_bool_decide as Hc.
  - by apply IH.
  - apply IH. rewrite has_sep_app, Hcur. simpl.
    by rewrite bool_decide_eq_false_2.
Qed.

Lemma basename_no_sep p : has_sep (basename p) = false.
Proof. by apply basename_from_no_sep. Qed.

Lemma isabs_has_sep s : isabs s = true → has_sep s = true.
Proof. destruct s as [|c s]; simpl; [done|]. by intros ->. Qed.

Lemma isabs_app a b : isabs a = true → isabs (a ++ b) = true.
Proof. by destruct a. Qed.

(** Joining onto an absolute directory gives an absolute path. *)
Lemma join_isabs a b : isabs a = true → isabs (join a b) = true.
Proof.
  intros Ha. unfold join. destruct (isabs b) eqn:Hb; [done|].
  destruct (_ || _); by apply isabs_app.
Qed.

Example join_relative : join "/var/tmp" "pkg-1.0" = "/var/tmp/pkg-1.0".
Proof. reflexivity. Qed.

Example join_absolute : join "/var/tmp" "/opt/src" = "/opt/src".
Proof. reflexivity. Qed.

Example join_empty : join "/usr/local" "" = "/usr/local/".
Proof. reflexivity. Qed.

Example join_after_sep : join "/usr/local/" "lib" = "/usr/local/lib".
Proof. reflexivity. Qed.

Example basename_url :
  basename "https://x/y/pkg-1.0.tar.gz" = "pkg-1.0.tar.gz".
Proof. reflexivity. Qed.

Example basename_trailing_sep : basename "/var/tmp/" = "".
Proof. reflexivity. Qed.

End posixpath.

(** ** Dictionaries and [sorted] *)

(** A [dict] from [str] to [str], as the list of its items in insertion
    order. *)
Definition dict := list (string * string).

(** [a <= b] on the tuples [(key, val)]: the first components decide unless
    they are equal. *)
Definition item_le (p q : string * string) : Prop :=
  PyStr.le p.1 q.1 ∧ (p.1 = q.1 → PyStr.le p.2 q.2).

Global Instance item_le_dec p q : Decision (item_le p q).
Proof. unfold item_le. apply _. Defined.

Global Instance item_le_refl : Reflexive item_le.
Proof. intros [k v]. split; [|intros _]; apply PyStr.leb_refl. Qed.

Global Instance item_le_trans : Transitive item_le.
Proof.
  intros [k1 v1] [k2 v2] [k3 v3] [H12 H12'] [H23 H23']; simpl in *.
  split; simpl; [by etrans|]. intros ->.
  assert (k2 = k3) as -> by (by apply (anti_symm PyStr.le)).
  etrans; eauto.
Qed.

Global Instance item_le_total : Total item_le.
Proof.
  intros [k1 v1] [k2 v2]. unfold item_le; simpl.
  destruct (decide (k1 = k2)) as [->|Hne].
  - destruct (total PyStr.le v1 v2); [left|right]; split; auto; apply PyStr.leb_refl.
  - destruct (total PyStr.le k1 k2); [left|right]; split; auto; congruence.
Qed.

Global Instance item_le_antisymm : AntiSymm (=) item_le.
Proof.
  intros [k1 v1] [k2 v2] [H12 H12'] [H21 H21']; simpl in *.
  assert (k1 = k2) as -> by (by apply (anti_symm PyStr.le)).
  f_equal. apply (anti_symm PyStr.le); auto.
Qed.

(** [sorted(d.items())]: a stable merge sort by [<=] on the items. *)
Definition sorted (items : dict) : dict := merge_sort item_le items.

Lemma sorted_Permutation items : sorted items ≡ₚ items.
Proof. apply merge_sort_Permutation. Qed.

Lemma sorted_StronglySorted items : StronglySorted item_le (sorted items).
Proof. apply StronglySorted_merge_sort; apply _. Qed.

(** The result of [sorted] does not depend on the order of its input. *)
Lemma sorted_order_independent items items' :
  items ≡ₚ items' → sorted items = sorted items'.
Proof.
  intros Hp. apply (StronglySorted_unique item_le);
    [apply sorted_StronglySorted..|].
  by rewrite !sorted_Permutation.
Qed.

Example sorted_items :
  sorted [("PATH", "/bin"); ("CC", "gcc"); ("AR", "ar"); ("CFLAGS", "-O2")]
  = [("AR", "ar"); ("CC", "gcc"); ("CFLAGS", "-O2"); ("PATH", "/bin")].
Proof. vm_compute. reflexivity. Qed.

(** The keys of the sorted items are in lexicographic order. *)
Lemma sorted_keys items : StronglySorted PyStr.le ((sorted items).*1).
Proof.
  eapply StronglySorted_fmap, sorted_StronglySorted.
  by intros p q [? _].
Qed.


(** ** Exceptions *)

(** The exceptions of the error taxonomy, and the [TypeError] that
    [posixpath.join] raises on an argument that is [None].
    [UnsupportedCombinationError] is named by the specification only: no
    statement of the block raises it. *)
Inductive exception :=
  | ConfigurationError
  | UnsupportedCombinationError
  | TypeError.

(** The outcome of a call: a value, or a raised exception. *)
Inductive result (A : Type) :=
  | Ok (a : A)
  | Raise (e : exception).
Arguments Ok {A} a.
Arguments Raise {A} e.

Global Instance result_ret : MRet result := @Ok.
Global Instance result_bind : MBind result := λ A B f m,
  match m with
  | Ok a => f a
  | Raise e => Raise e
  end.

(** [os.fspath(v)], the first thing [posixpath.join] does to each of its
    arguments: [None] is not a path. *)
Definition fspath (v : pystr) : result string :=
  match v with
  | Some s => Ok s
  | None => Raise TypeError
  end.

(** [bool(l)] for a list. *)
Definition nonempty {A} (l : list A) : bool :=
  match l with
  | [] => false
  | _ :: _ => true
  end.

(** ** Primitives *)

(** The container instructions the block constructs
    (hpccm.primitives.comment, .shell, .environment, .copy), with the
    keyword arguments it passes. *)
Inductive instruction :=
  | comment (text : pystr) (reformat : bool)
  | shell (_arguments : option dict) (commands : list string)
  | environment (variables : dict)
  | copy (_from : string) (src dest : pystr).

Section GenericCMake.

(** *** Providers

    The step generators of the templates the class inherits from
    (hpccm.templates.CMakeBuild, .downloader, .ldconfig, .rm) and the
    rendering of the primitives return text that the block only passes on.
    They are parameters here; every result below holds for all of them. *)

(** The toolchain object and [toolchain()]. *)
Variable Toolchain : Type.
Variable default_toolchain : Toolchain.

(** The text of the fetch step and the source directory the downloader
    resolves, from [url], [repository], [branch], [commit], [recursive]
    and [wd]. *)
Variable download_command :
  pystr → pystr → pystr → pystr → bool → string → string.
Variable download_directory :
  pystr → pystr → pystr → pystr → bool → string → string.

(** [configure_step(build_directory, directory, environment, toolchain)];
    it also reads [self.cmake_opts] and [self.prefix]. *)
Variable configure_step :
  list string → pystr → pystr → pystr → list string → Toolchain → string.

(** [build_step(target=None)]. *)
Variable build_step : option string → string.

(** [ldcache_step(directory)]. *)
Variable ldcache_step : string → string.

(** [cleanup_step(items)]. *)
Variable cleanup_step : list pystr → string.

(** [str(x)] for a primitive. *)
Variable str : instruction → string.

(** *** Keyword arguments

    [kwargs]: a key that is absent is [None] at the outer [option]; for the
    keys whose default is [None] an absent key and [None] are the same
    value. *)
Record kwargs := {
  kw_branch : pystr;
  kw_build_directory : option pystr;
  kw_build_environment : option dict;
  kw_check : option bool;
  kw_cmake_opts : option (list string);
  kw_commit : pystr;
  kw_devel_environment : option dict;
  kw_directory : pystr;
  kw_install : option bool;
  kw_ldconfig : option bool;
  kw_libdir : option pystr;
  kw_make : option bool;
  kw_postinstall : option (list string);
  kw_preconfigure : option (list string);
  kw_prefix : option pystr;
  kw_recursive : option bool;
  kw_repository : pystr;
  kw__run_arguments : option dict;
  kw_runtime_environment : option dict;
  kw_toolchain : option Toolchain;
  kw_url : pystr
}.

(** [kwargs.get(key, default)]. *)
Definition get {A} (v : option A) (default : A) : A :=
  match v with
  | Some a => a
  | None => default
  end.

(** *** The object

    The attributes of a [generic_cmake] instance: those [__init__] assigns
    (lines 168-185), those the inherited templates hold ([branch],
    [commit], [repository], [url], [src_directory], [prefix], [ldconfig]),
    and the instruction list of [bb_base] that [+=] appends to. *)
Record generic_cmake := {
  branch : pystr;
  commit : pystr;
  repository : pystr;
  url : pystr;
  src_directory : pystr;
  prefix : pystr;
  ldconfig : bool;
  build_directory : pystr;
  build_environment : dict;
  check : bool;
  cmake_opts : list string;
  directory : pystr;
  environment_variables : dict;
  install : bool;
  libdir : pystr;
  make : bool;
  postinstall : list string;
  preconfigure : list string;
  recursive : bool;
  run_arguments : option dict;
  runtime_environment_variables : dict;
  toolchain : Toolchain;
  commands : list string;
  wd : string;
  instructions : list instruction
}.

(** [self.src_directory = v]. *)
Definition set_src_directory (v : pystr) (self : generic_cmake) : generic_cmake :=
  {| branch := branch self; commit := commit self;
     repository := repository self; url := url self;
     src_directory := v;
     prefix := prefix self; ldconfig := ldconfig self;
     build_directory := build_directory self;
     build_environment := build_environment self; check := check self;
     cmake_opts := cmake_opts self; directory := directory self;
     environment_variables := environment_variables self;
     install := install self; libdir := libdir self; make := make self;
     postinstall := postinstall self; preconfigure := preconfigure self;
     recursive := recursive self; run_arguments := run_arguments self;
     runtime_environment_variables := runtime_environment_variables self;
     toolchain := toolchain self;
     commands := commands self; wd := wd self;
     instructions := instructions self |}.

(** [self.__commands.extend(items)]; [append(x)] is [extend([x])]. *)
Definition extend_commands (items : list string) (self : generic_cmake) : generic_cmake :=
  {| branch := branch self; commit := commit self;
     repository := repository self; url := url self;
     src_directory := src_directory self;
     prefix := prefix self; ldconfig := ldconfig self;
     build_directory := build_directory self;
     build_environment := build_environment self; check := check self;
     cmake_opts := cmake_opts self; directory := directory self;
     environment_variables := environment_variables self;
     install := install self; libdir := libdir self; make := make self;
     postinstall := postinstall self; preconfigure := preconfigure self;
     recursive := recursive self; run_arguments := run_arguments self;
     runtime_environment_variables := runtime_environment_variables self;
     toolchain := toolchain self;
     commands := commands self ++ items; wd := wd self;
     instructions := instructions self |}.

Definition append_command (x : string) (self : generic_cmake) : generic_cmake :=
  extend_commands [x] self.

(** Modelled from the spec: [bb_base.__iadd__] is not among the sources;
    [self += x] appends the instruction [x] to the block's instruction
    sequence (section 4.6, step 9). *)
Definition iadd (x : instruction) (self : generic_cmake) : generic_cmake :=
  {| branch := branch self; commit := commit self;
     repository := repository self; url := url self;
     src_directory := src_directory self;
     prefix := prefix self; ldconfig := ldconfig self;
     build_directory := build_directory self;
     build_environment := build_environment self; check := check self;
     cmake_opts := cmake_opts self; directory := directory self;
     environment_variables := environment_variables self;
     install := install self; libdir := libdir self; make := make self;
     postinstall := postinstall self; preconfigure := preconfigure self;
     recursive := recursive self; run_arguments := run_arguments self;
     runtime_environment_variables := runtime_environment_variables self;
     toolchain := toolchain self;
     commands := commands self; wd := wd self;
     instructions := instructions self ++ [x] |}.

(** *** Inherited steps *)

(** A source field is given when it is a non-empty string. *)
Definition given (v : pystr) : bool :=
  match truthy v with
  | Some _ => true
  | None => false
  end.

(** Modelled from the spec: [downloader.download_step] is not among the
    sources. Section 4.1: it fails with [ConfigurationError] if neither or
    both of archive and repository are given, or if [branch], [commit] or
    [recursive] are given without [repository]; otherwise it produces the
    fetch step and resolves the source directory, which the block then
    reads from [self.src_directory]. *)
Definition download_step (recursive : bool) (wd : string) (self : generic_cmake)
    : result (string * generic_cmake) :=
  if bool_decide (given (url self) = given (repository self)) then
    Raise ConfigurationError
  else if (given (branch self) || given (commit self) || recursive)
          && negb (given (repository self)) then
    Raise ConfigurationError
  else
    Ok (download_command (url self) (repository self) (branch self)
          (commit self) recursive wd,
        set_src_directory
          (Some (download_directory (url self) (repository self)
                   (branch self) (commit self) recursive wd))
          self).

(** Modelled from the spec: [envvars.environment_step] is not among the
    sources. Section 4.4: it returns the devel mapping by default and the
    runtime mapping when [runtime=True]; the two are never merged. *)
Definition environment_step (runtime : bool) (self : generic_cmake) : dict :=
  if runtime then runtime_environment_variables self
  else environment_variables self.

(** *** [__setup], lines 204-268 *)

(** ['{0}={1}'.format(key, val)]. *)
Definition assignment (item : string * string) : string :=
  item.1 ++ "=" ++ item.2.

(** Lines 228-231: the [KEY=VALUE] assignments handed to [configure_step]. *)
Definition build_environment_assignments (self : generic_cmake) : list string :=
  if nonempty (build_environment self) then
    assignment <$> sorted (build_environment self)
  else [].

(** Lines 261-267: the list [remove] handed to [cleanup_step]. *)
Definition cleanup_items (self : generic_cmake) : list pystr :=
  let remove := [src_directory self] in
  let remove :=
    match truthy (url self) with
    | Some u => remove ++ [Some (posixpath.join (wd self) (posixpath.basename u))]
    | None => remove
    end in
  match truthy (build_directory self) with
  | Some b => if posixpath.isabs b then remove ++ [Some b] else remove
  | None => remove
  end.

(** Lines 212-218, "directory containing the unarchived package". *)
Definition unarchived_directory (self : generic_cmake) : generic_cmake :=
  match truthy (directory self) with
  | Some d =>
      if posixpath.isabs d then set_src_directory (Some d) self
      else set_src_directory (Some (posixpath.join (wd self) d)) self
  | None => self
  end.

(** Lines 220-225, "Preconfigure setup". *)
Definition preconfigure_setup (self : generic_cmake) : generic_cmake :=
  if nonempty (preconfigure self) then
    (* Assume the preconfigure commands should be run from the source
       directory *)
    let self := append_command ("cd " ++ format (src_directory self)) self in
    extend_commands (preconfigure self) self
  else self.

(** Lines 227-235, "Configure". *)
Definition configure (self : generic_cmake) : generic_cmake :=
  let build_environment := build_environment_assignments self in
  append_command
    (configure_step (cmake_opts self) (prefix self) (build_directory self)
       (src_directory self) build_environment (toolchain self))
    self.

(** Lines 237-239, "Build". *)
Definition build (self : generic_cmake) : generic_cmake :=
  if make self then append_command (build_step None) self else self.

(** Lines 241-243, "Check the build". *)
Definition check_the_build (self : generic_cmake) : generic_cmake :=
  if check self then append_command (build_step (Some "check")) self else self.

(** Lines 245-247, "Install". *)
Definition install_step (self : generic_cmake) : generic_cmake :=
  if install self then append_command (build_step (Some "install")) self
  else self.

(** Lines 249-253. *)
Definition postinstall_setup (self : generic_cmake) : generic_cmake :=
  if nonempty (postinstall self) then
    (* Assume the postinstall commands should be run from the install
       directory *)
    let self := append_command ("cd " ++ format (prefix self)) self in
    extend_commands (postinstall self) self
  else self.

(** Lines 255-258, "Set library path". *)
Definition set_library_path (self : generic_cmake) : result generic_cmake :=
  if ldconfig self then
    a ← fspath (prefix self);
    b ← fspath (libdir self);
    Ok (append_command (ldcache_step (posixpath.join a b)) self)
  else Ok self.

(** Lines 260-268, "Cleanup". *)
Definition cleanup (self : generic_cmake) : generic_cmake :=
  let remove := cleanup_items self in
  append_command (cleanup_step remove) self.

(** The body of [__setup]: the statements above in the order of the
    source, after the download step of lines 208-210. *)
Definition __setup (self : generic_cmake) : result generic_cmake :=
  '(step, self) ← download_step (recursive self) (wd self) self;
  let self := append_command step self in
  let self := unarchived_directory self in
  let self := preconfigure_setup self in
  let self := configure self in
  let self := build self in
  let self := check_the_build self in
  let self := install_step self in
  let self := postinstall_setup self in
  self ← set_library_path self;
  Ok (cleanup self).

(** *** [__instructions], lines 193-202 *)

Definition __instructions (self : generic_cmake) : generic_cmake :=
  let self :=
    if given (url self) then iadd (comment (url self) false) self
    else if given (repository self) then iadd (comment (repository self) false) self
    else self in
  let self := iadd (shell (run_arguments self) (commands self)) self in
  iadd (environment (environment_step false self)) self.

(** *** [__init__], lines 163-191 *)

(** Modelled from the spec: the constructors of the templates, which the
    call of the inherited constructor on line 166 reaches, are not among
    the sources. They keep [branch], [commit], [repository], [url],
    [prefix] and [ldconfig] from the keyword arguments and start with no
    source directory. The defaults of the two that have one are those of
    the class docstring and of section 6: [prefix] is ['/usr/local'] and
    [ldconfig] is [False]. The [environment] flag of the docstring belongs
    to the absent environment provider; section 4.4 gives it no effect and
    it is not modelled. *)
Definition inherited_prefix (kw : kwargs) : pystr :=
  get (kw_prefix kw) (Some "/usr/local").

Definition inherited_ldconfig (kw : kwargs) : bool :=
  get (kw_ldconfig kw) false.

(** The object after lines 166-185. *)
Definition attributes (kw : kwargs) : generic_cmake :=
  {| branch := kw_branch kw; commit := kw_commit kw;
     repository := kw_repository kw; url := kw_url kw;
     src_directory := None;
     prefix := inherited_prefix kw;
     ldconfig := inherited_ldconfig kw;
     build_directory := get (kw_build_directory kw) (Some "build");
     build_environment := get (kw_build_environment kw) [];
     check := get (kw_check kw) false;
     cmake_opts := get (kw_cmake_opts kw) [];
     directory := kw_directory kw;
     environment_variables := get (kw_devel_environment kw) [];
     install := get (kw_install kw) true;
     libdir := get (kw_libdir kw) (Some "lib");
     make := get (kw_make kw) true;
     postinstall := get (kw_postinstall kw) [];
     preconfigure := get (kw_preconfigure kw) [];
     recursive := get (kw_recursive kw) false;
     run_arguments := kw__run_arguments kw;
     runtime_environment_variables := get (kw_runtime_environment kw) [];
     toolchain := get (kw_toolchain kw) default_toolchain;
     commands := []; (* Filled in by __setup() *)
     wd := "/var/tmp"; (* working directory *)
     instructions := [] |}.

Definition __init__ (kw : kwargs) : result generic_cmake :=
  let self := attributes kw in
  (* Construct the series of steps to execute *)
  self ← __setup self;
  (* Fill in container instructions *)
  Ok (__instructions self).

(** *** [runtime], lines 271-299 *)

(** Lines 284-296: the list [instructions] of the branch taken when
    [self.prefix] is true. *)
Definition runtime_instructions (self : generic_cmake) (_from : string)
    : result (list instruction) :=
  let instructions := [] in
  let instructions :=
    if given (url self) then instructions ++ [comment (url self) false]
    else if given (repository self) then
      instructions ++ [comment (repository self) false]
    else instructions in
  let instructions := instructions ++ [copy _from (prefix self) (prefix self)] in
  instructions ←
    (if ldconfig self then
       a ← fspath (prefix self);
       b ← fspath (libdir self);
       Ok (instructions ++ [shell None [ldcache_step (posixpath.join a b)]])
     else Ok instructions);
  let instructions :=
    if nonempty (runtime_environment_variables self) then
      instructions ++ [environment (environment_step true self)]
    else instructions in
  Ok instructions.

(** [runtime(self, _from)]: the rendered instructions joined by newlines,
    or [None] (a bare [return]) when [self.prefix] is false. *)
Definition runtime (self : generic_cmake) (_from : string) : result (option string) :=
  if given (prefix self) then
    instructions ← runtime_instructions self _from;
    Ok (Some (PyStr.join nl (str <$> instructions)))
  else Ok None.

End GenericCMake.

Arguments kw_branch {Toolchain} k.
Arguments kw_build_directory {Toolchain} k.
Arguments kw_build_environment {Toolchain} k.
Arguments kw_check {Toolchain} k.
Arguments kw_cmake_opts {Toolchain} k.
Arguments kw_commit {Toolchain} k.
Arguments kw_devel_environment {Toolchain} k.
Arguments kw_directory {Toolchain} k.
Arguments kw_install {Toolchain} k.
Arguments kw_ldconfig {Toolchain} k.
Arguments kw_libdir {Toolchain} k.
Arguments kw_make {Toolchain} k.
Arguments kw_postinstall {Toolchain} k.
Arguments kw_preconfigure {Toolchain} k.
Arguments kw_prefix {Toolchain} k.
Arguments kw_recursive {Toolchain} k.
Arguments kw_repository {Toolchain} k.
Arguments kw__run_arguments {Toolchain} k.
Arguments kw_runtime_environment {Toolchain} k.
Arguments kw_toolchain {Toolchain} k.
Arguments kw_url {Toolchain} k.
Arguments branch {Toolchain} g.
Arguments commit {Toolchain} g.
Arguments repository {Toolchain} g.
Arguments url {Toolchain} g.
Arguments src_directory {Toolchain} g.
Arguments prefix {Toolchain} g.
Arguments ldconfig {Toolchain} g.
Arguments build_directory {Toolchain} g.
Arguments build_environment {Toolchain} g.
Arguments check {Toolchain} g.
Arguments cmake_opts {Toolchain} g.
Arguments directory {Toolchain} g.
Arguments environment_variables {Toolchain} g.
Arguments install {Toolchain} g.
Arguments libdir {Toolchain} g.
Arguments make {Toolchain} g.
Arguments postinstall {Toolchain} g.
Arguments preconfigure {Toolchain} g.
Arguments recursive {Toolchain} g.
Arguments run_arguments {Toolchain} g.
Arguments runtime_environment_variables {Toolchain} g.
Arguments toolchain {Toolchain} g.
Arguments commands {Toolchain} g.
Arguments wd {Toolchain} g.
Arguments instructions {Toolchain} g.
Arguments set_src_directory {Toolchain} v self.
Arguments extend_commands {Toolchain} items self.
Arguments append_command {Toolchain} x self.
Arguments iadd {Toolchain} x self.
Arguments environment_step {Toolchain} runtime self.
Arguments build_environment_assignments {Toolchain} self.
Arguments cleanup_items {Toolchain} self.
Arguments __instructions {Toolchain} self.

(** ** A concrete choice of providers

    One instantiation of the parameters, to run the model on examples. No
    result depends on it: the theorems hold for every choice. *)
Module Sample.

Definition source (url repository : pystr) : string :=
  match truthy url with
  | Some u => u
  | None => format repository
  end.

Definition download_command (url repository branch commit : pystr)
    (recursive : bool) (wd : string) : string :=
  "fetch " ++ source url repository ++ " into " ++ wd.

Definition download_directory (url repository branch commit : pystr)
    (recursive : bool) (wd : string) : string :=
  posixpath.join wd (posixpath.basename (source url repository) ++ ".src").

Definition configure_step (cmake_opts : list string)
    (prefix build_directory directory : pystr) (environment : list string)
    (toolchain : unit) : string :=
  PyStr.join " "
    (["cd"; format build_directory; "&&"] ++ environment
       ++ ["cmake"; "-DCMAKE_INSTALL_PREFIX=" +:+ format prefix]
       ++ cmake_opts ++ [format directory]).

Definition build_step (target : option string) : string :=
  match target with
  | None => "make"
  | Some t => "make " ++ t
  end.

Definition ldcache_step (directory : string) : string :=
  "ldconfig " ++ directory.

Definition cleanup_step (items : list pystr) : string :=
  "rm -rf " ++ PyStr.join " " (format <$> items).

Definition str (x : instruction) : string :=
  match x with
  | comment text _ => "# " ++ format text
  | shell _ commands => "RUN " ++ PyStr.join " && " commands
  | environment variables => "ENV " ++ PyStr.join " " (assignment <$> variables)
  | copy _from src dest =>
      "COPY --from=" ++ _from ++ " " ++ format src ++ " " ++ format dest
  end.

(** Keyword arguments with every key absent. *)
Definition no_kwargs : kwargs unit :=
  {| kw_branch := None; kw_build_directory := None;
     kw_build_environment := None; kw_check := None; kw_cmake_opts := None;
     kw_commit := None; kw_devel_environment := None; kw_directory := None;
     kw_install := None; kw_ldconfig := None; kw_libdir := None;
     kw_make := None; kw_postinstall := None; kw_preconfigure := None;
     kw_prefix := None; kw_recursive := None; kw_repository := None;
     kw__run_arguments := None; kw_runtime_environment := None;
     kw_toolchain := None; kw_url := None |}.

(** The constructor with the sample providers. *)
Definition new (kw : kwargs unit) : result (generic_cmake unit) :=
  __init__ unit tt download_command download_directory configure_step
    build_step ldcache_step cleanup_step kw.

Definition runtime (self : generic_cmake unit) (_from : string)
    : result (option string) :=
  runtime unit ldcache_step str self _from.

End Sample.

Arguments unarchived_directory {Toolchain} self.
Arguments preconfigure_setup {Toolchain} self.
Arguments postinstall_setup {Toolchain} self.

(** * Properties *)

(** ** The command list as a function of the finished object *)

Section Pipeline.

Context {Toolchain : Type}.
Context (download_command :
  pystr → pystr → pystr → pystr → bool → string → string).
Context (configure_step :
  list string → pystr → pystr → pystr → list string → Toolchain → string).
Context (build_step : option string → string).
Context (ldcache_step : string → string).
Context (cleanup_step : list pystr → string).

Implicit Type self : generic_cmake Toolchain.

(** The fetch step of the block's source. *)
Definition fetch_step self : string :=
  download_command (url self) (repository self) (branch self) (commit self)
    (recursive self) (wd self).

(** The change of directory to the source directory and the preconfigure
    commands, when there are any. *)
Definition preconfigure_commands self : list string :=
  if nonempty (preconfigure self) then
    ("cd " +:+ format (src_directory self)) :: preconfigure self
  else [].

(** The configure step. *)
Definition configure_command self : string :=
  configure_step (cmake_opts self) (prefix self) (build_directory self)
    (src_directory self) (build_environment_assignments self) (toolchain self).

Definition make_commands self : list string :=
  if make self then [build_step None] else [].

Definition check_commands self : list string :=
  if check self then [build_step (Some "check")] else [].

Definition install_commands self : list string :=
  if install self then [build_step (Some "install")] else [].

(** The change of directory to the prefix and the postinstall commands,
    when there are any. *)
Definition postinstall_commands self : list string :=
  if nonempty (postinstall self) then
    ("cd " +:+ format (prefix self)) :: postinstall self
  else [].

(** The linker-cache registration of [prefix/libdir]. *)
Definition library_path_commands self : list string :=
  if ldconfig self then
    match prefix self, libdir self with
    | Some a, Some b => [ldcache_step (posixpath.join a b)]
    | _, _ => []
    end
  else [].

(** The cleanup step. *)
Definition cleanup_command self : string :=
  cleanup_step (cleanup_items self).

(** The steps that follow the fetch step, in the order of section 4.6. *)
Definition steps_after_fetch self : list string :=
  preconfigure_commands self ++ [configure_command self]
    ++ make_commands self ++ check_commands self ++ install_commands self
    ++ postinstall_commands self ++ library_path_commands self
    ++ [cleanup_command self].

End Pipeline.

(** [s] with its source directory and command list replaced: the two
    attributes [__setup] assigns. *)
Definition state_of {Toolchain} (s : generic_cmake Toolchain) (d : pystr)
    (l : list string) : generic_cmake Toolchain :=
  {| branch := branch s; commit := commit s;
     repository := repository s; url := url s;
     src_directory := d;
     prefix := prefix s; ldconfig := ldconfig s;
     build_directory := build_directory s;
     build_environment := build_environment s; check := check s;
     cmake_opts := cmake_opts s; directory := directory s;
     environment_variables := environment_variables s;
     install := install s; libdir := libdir s; make := make s;
     postinstall := postinstall s; preconfigure := preconfigure s;
     recursive := recursive s; run_arguments := run_arguments s;
     runtime_environment_variables := runtime_environment_variables s;
     toolchain := toolchain s;
     commands := l; wd := wd s;
     instructions := instructions s |}.

(** The source directory after lines 208-218: [directory] when it is
    given, made absolute under the working directory, and otherwise what
    the downloader resolved. *)
Definition resolved_directory {Toolchain} (s : generic_cmake Toolchain)
    (downloaded : string) : string :=
  match truthy (directory s) with
  | Some d => if posixpath.isabs d then d else posixpath.join (wd s) d
  | None => downloaded
  end.

(** The source fields that [download_step] rejects. *)
Definition source_rejected {Toolchain} (s : generic_cmake Toolchain) : bool :=
  bool_decide (given (url s) = given (repository s))
  || (given (branch s) || given (commit s) || recursive s)
     && negb (given (repository s)).

Section Properties.

Context {Toolchain : Type} (default_toolchain : Toolchain).
Context (download_command download_directory :
  pystr → pystr → pystr → pystr → bool → string → string).
Context (configure_step :
  list string → pystr → pystr → pystr → list string → Toolchain → string).
Context (build_step : option string → string).
Context (ldcache_step : string → string).
Context (cleanup_step : list pystr → string).
Context (str : instruction → string).

Implicit Type s self : generic_cmake Toolchain.
Implicit Type kw : kwargs Toolchain.

Local Abbreviation setup :=
  (__setup Toolchain download_command download_directory configure_step
     build_step ldcache_step cleanup_step).
Local Abbreviation new :=
  (__init__ Toolchain default_toolchain download_command download_directory
     configure_step build_step ldcache_step cleanup_step).
Local Abbreviation downloaded s :=
  (download_directory (url s) (repository s) (branch s) (commit s)
     (recursive s) (wd s)).
Local Abbreviation after_fetch :=
  (steps_after_fetch configure_step build_step ldcache_step cleanup_step).

Local Abbreviation project :=
  (runtime Toolchain ldcache_step str).

(** ** How [__setup] transforms the object *)

Lemma state_of_eta s : state_of s (src_directory s) (commands s) = s.
Proof. by destruct s. Qed.

Lemma extend_commands_state s d l l' :
  extend_commands l' (state_of s d l) = state_of s d (l ++ l').
Proof. done. Qed.

Lemma append_command_state s d l x :
  append_command x (state_of s d l) = state_of s d (l ++ [x]).
Proof. done. Qed.

Lemma download_step_state s :
  download_step Toolchain download_command download_directory
    (recursive s) (wd s) s
  = if source_rejected s then Raise ConfigurationError
    else Ok (fetch_step download_command s,
             state_of s (Some (downloaded s)) (commands s)).
Proof.
  unfold download_step, source_rejected.
  case_bool_decide; [done|]. simpl. by destruct (_ && _).
Qed.

Lemma unarchived_directory_state s d l :
  unarchived_directory (state_of s (Some d) l)
  = state_of s (Some (resolved_directory s d)) l.
Proof.
  unfold unarchived_directory, resolved_directory; simpl.
  destruct (truthy (directory s)) as [x|]; [|done].
  by destruct (posixpath.isabs x).
Qed.

Lemma preconfigure_setup_state s d l :
  preconfigure_setup (state_of s d l)
  = state_of s d (l ++ preconfigure_commands (state_of s d [])).
Proof.
  unfold preconfigure_setup, preconfigure_commands.
  cbn [preconfigure src_directory state_of].
  destruct (nonempty (preconfigure s)); [|by rewrite app_nil_r].
  cbn zeta. rewrite append_command_state, extend_commands_state.
  cbn [preconfigure state_of]. by rewrite <- app_assoc.
Qed.

Lemma configure_state s d l :
  configure Toolchain configure_step (state_of s d l)
  = state_of s d (l ++ [configure_command configure_step (state_of s d [])]).
Proof. done. Qed.

Lemma build_state s d l :
  build Toolchain build_step (state_of s d l)
  = state_of s d (l ++ make_commands build_step s).
Proof.
  unfold build, make_commands; simpl.
  destruct (make s); [done|]. by rewrite app_nil_r.
Qed.

Lemma check_the_build_state s d l :
  check_the_build Toolchain build_step (state_of s d l)
  = state_of s d (l ++ check_commands build_step s).
Proof.
  unfold check_the_build, check_commands; simpl.
  destruct (check s); [done|]. by rewrite app_nil_r.
Qed.

Lemma install_step_state s d l :
  install_step Toolchain build_step (state_of s d l)
  = state_of s d (l ++ install_commands build_step s).
Proof.
  unfold install_step, install_commands; simpl.
  destruct (install s); [done|]. by rewrite app_nil_r.
Qed.

Lemma postinstall_setup_state s d l :
  postinstall_setup (state_of s d l)
  = state_of s d (l ++ postinstall_commands s).
Proof.
  unfold postinstall_setup, postinstall_commands.
  cbn [postinstall prefix state_of].
  destruct (nonempty (postinstall s)); [|by rewrite app_nil_r].
  cbn zeta. rewrite append_command_state, extend_commands_state.
  cbn [postinstall state_of]. by rewrite <- app_assoc.
Qed.

(** The linker-cache step needs [prefix] and [libdir] to be strings. *)
Definition library_path_fails s : bool :=
  ldconfig s && negb (bool_decide (is_Some (prefix s) ∧ is_Some (libdir s))).

Lemma set_library_path_state s d l :
  set_library_path Toolchain ldcache_step (state_of s d l)
  = if library_path_fails s then Raise TypeError
    else Ok (state_of s d (l ++ library_path_commands ldcache_step s)).
Proof.
  unfold set_library_path, library_path_fails, library_path_commands; simpl.
  destruct (ldconfig s); simpl; [|by rewrite app_nil_r].
  destruct (prefix s) as [a|], (libdir s) as [b|]; simpl;
    rewrite ?bool_decide_eq_true_2, ?bool_decide_eq_false_2; simpl;
    try done; try (split; eauto); intros [[? [=]] [? [=]]].
Qed.

Lemma cleanup_state s d l :
  cleanup Toolchain cleanup_step (state_of s d l)
  = state_of s d (l ++ [cleanup_command cleanup_step (state_of s d [])]).
Proof. done. Qed.

Lemma bind_Ok {A B} (a : A) (f : A → result B) : Ok a ≫= f = f a.
Proof. done. Qed.

(** The statements of [__setup] between the download and the
    linker-cache step. *)
Lemma setup_middle s d l :
  postinstall_setup
    (install_step Toolchain build_step
       (check_the_build Toolchain build_step
          (build Toolchain build_step
             (configure Toolchain configure_step
                (preconfigure_setup
                   (unarchived_directory (state_of s (Some d) l)))))))
  = let d' := Some (resolved_directory s d) in
    state_of s d'
      (l ++ preconfigure_commands (state_of s d' [])
         ++ [configure_command configure_step (state_of s d' [])]
         ++ make_commands build_step s ++ check_commands build_step s
         ++ install_commands build_step s ++ postinstall_commands s).
Proof.
  rewrite unarchived_directory_state, preconfigure_setup_state,
    configure_state, build_state, check_the_build_state, install_step_state,
    postinstall_setup_state.
  by rewrite <- !app_assoc.
Qed.

(** [__setup] in closed form: it raises on a rejected source and on a
    linker-cache step without a path, and otherwise resolves the source
    directory and appends the fetch step and the steps after it. *)
Lemma setup_closed_form s :
  setup s
  = if source_rejected s then Raise ConfigurationError
    else if library_path_fails s then Raise TypeError
    else
      let d := Some (resolved_directory s (downloaded s)) in
      Ok (state_of s d
            (commands s ++ fetch_step download_command s
               :: after_fetch (state_of s d []))).
Proof.
  unfold __setup. rewrite download_step_state.
  destruct (source_rejected s); [done|]. rewrite bind_Ok.
  rewrite append_command_state, setup_middle, set_library_path_state.
  destruct (library_path_fails s); [done|]. rewrite bind_Ok, cleanup_state.
  unfold steps_after_fetch. rewrite <- !app_assoc. done.
Qed.

(** ** How [__instructions] and [__init__] finish the object *)

(** [s] with the three attributes assigned after lines 166-185 replaced. *)
Definition finished s (d : pystr) (l : list string) (i : list instruction)
    : generic_cmake Toolchain :=
  {| branch := branch s; commit := commit s;
     repository := repository s; url := url s;
     src_directory := d;
     prefix := prefix s; ldconfig := ldconfig s;
     build_directory := build_directory s;
     build_environment := build_environment s; check := check s;
     cmake_opts := cmake_opts s; directory := directory s;
     environment_variables := environment_variables s;
     install := install s; libdir := libdir s; make := make s;
     postinstall := postinstall s; preconfigure := preconfigure s;
     recursive := recursive s; run_arguments := run_arguments s;
     runtime_environment_variables := runtime_environment_variables s;
     toolchain := toolchain s;
     commands := l; wd := wd s;
     instructions := i |}.

(** The leading comment: the URL, or else the repository. *)
Definition source_comment s : list instruction :=
  if given (url s) then [comment (url s) false]
  else if given (repository s) then [comment (repository s) false]
  else [].

(** The instruction sequence of the build stage. *)
Definition build_stage s (l : list string) : list instruction :=
  source_comment s
    ++ [shell (run_arguments s) l; environment (environment_variables s)].

Lemma instructions_state s d l :
  __instructions (state_of s d l)
  = finished s d l (instructions s ++ build_stage s l).
Proof.
  unfold __instructions, build_stage, source_comment.
  cbn [url repository state_of].
  destruct (given (url s)); [|destruct (given (repository s))];
    unfold iadd, finished; cbn; rewrite <- ?app_assoc; try done.
Qed.

(** The command list of a block built from [s], whose source directory
    resolved to [d]. *)
Definition command_list s (d : pystr) : list string :=
  fetch_step download_command s :: after_fetch (state_of s d []).

(** [__init__] in closed form. *)
Lemma init_closed_form kw :
  new kw
  = let s := attributes Toolchain default_toolchain kw in
    if source_rejected s then Raise ConfigurationError
    else if library_path_fails s then Raise TypeError
    else
      let d := Some (resolved_directory s (downloaded s)) in
      Ok (finished s d (command_list s d)
            (build_stage s (command_list s d))).
Proof.
  unfold __init__. cbn zeta. rewrite setup_closed_form.
  destruct (source_rejected _); [done|].
  destruct (library_path_fails _); [done|].
  cbn zeta. rewrite bind_Ok. f_equal. apply instructions_state.
Qed.

(** What a successful construction returns. *)
Lemma init_Ok kw self :
  new kw = Ok self →
  let s := attributes Toolchain default_toolchain kw in
  let d := Some (resolved_directory s (downloaded s)) in
  source_rejected s = false ∧ library_path_fails s = false
  ∧ self = finished s d (command_list s d) (build_stage s (command_list s d)).
Proof.
  rewrite init_closed_form. cbn zeta.
  destruct (source_rejected _); [done|].
  destruct (library_path_fails _); [done|].
  by intros [= <-].
Qed.

(** The object as lines 166-185 left it: [self] without what [__setup]
    and [__instructions] assigned. *)
Definition before_setup self : generic_cmake Toolchain :=
  finished self None [] [].

(** A constructed block keeps the attributes its keyword arguments gave. *)
Lemma init_attributes kw self :
  new kw = Ok self →
  before_setup self = attributes Toolchain default_toolchain kw.
Proof. by intros (_ & _ & ->)%init_Ok. Qed.

(** With [ldconfig], construction succeeds only when [prefix] and [libdir]
    are strings. *)
Lemma init_library_path kw self :
  new kw = Ok self → ldconfig self = true →
  ∃ a b, prefix self = Some a ∧ libdir self = Some b
         ∧ library_path_commands ldcache_step self
           = [ldcache_step (posixpath.join a b)].
Proof.
  intros (_ & Hlib & ->)%init_Ok. revert Hlib.
  generalize (attributes Toolchain default_toolchain kw); intros s.
  unfold library_path_fails, library_path_commands.
  cbn [ldconfig prefix libdir finished]. intros Hlib Hld.
  rewrite Hld in Hlib |- *. simpl in Hlib.
  apply negb_false_iff, bool_decide_eq_true in Hlib as [[a Ha] [b Hb]].
  exists a, b. by rewrite Ha, Hb.
Qed.

(** The command list of a constructed block, step by step. *)
Lemma init_commands kw self :
  new kw = Ok self →
  commands self
  = [fetch_step download_command self]
      ++ preconfigure_commands self
      ++ [configure_command configure_step self]
      ++ make_commands build_step self
      ++ check_commands build_step self
      ++ install_commands build_step self
      ++ postinstall_commands self
      ++ library_path_commands ldcache_step self
      ++ [cleanup_command cleanup_step self].
Proof. by intros (_ & _ & ->)%init_Ok. Qed.

(** The first, the configure and the last step are always there. *)
Lemma init_commands_ends kw self :
  new kw = Ok self →
  head (commands self) = Some (fetch_step download_command self)
  ∧ configure_command configure_step self ∈ commands self
  ∧ last (commands self) = Some (cleanup_command cleanup_step self).
Proof.
  intros Hnew. rewrite (init_commands _ _ Hnew). split; [done|]. split.
  - rewrite !elem_of_app. right; right; left. apply list_elem_of_singleton. done.
  - rewrite !app_assoc. apply last_snoc.
Qed.

(** The source directory of a constructed block. *)
Lemma init_src_directory kw self :
  new kw = Ok self →
  src_directory self = Some (resolved_directory self (downloaded self))
  ∧ wd self = "/var/tmp".
Proof. by intros (_ & _ & ->)%init_Ok. Qed.

(** Exactly one of [url] and [repository] is given in a constructed
    block, and [branch], [commit] and [recursive] only with [repository]. *)
Lemma init_source kw self :
  new kw = Ok self →
  given (url self) ≠ given (repository self)
  ∧ (given (repository self) = false →
     given (branch self) = false ∧ given (commit self) = false
     ∧ recursive self = false).
Proof.
  intros (Hrej & _ & ->)%init_Ok. revert Hrej.
  generalize (attributes Toolchain default_toolchain kw); intros s.
  unfold source_rejected. cbn [url repository branch commit recursive finished].
  intros [Hne Hdep]%orb_false_iff. apply bool_decide_eq_false in Hne.
  split; [done|]. intros Hrepo. rewrite Hrepo in Hdep. simpl in Hdep.
  rewrite andb_true_r in Hdep.
  by apply orb_false_iff in Hdep as [[??]%orb_false_iff ?].
Qed.

(** [runtime_instructions] when the linker-cache step has its path. *)
Lemma runtime_instructions_Ok self _from :
  (ldconfig self = true → is_Some (prefix self) ∧ is_Some (libdir self)) →
  runtime_instructions Toolchain ldcache_step self _from
  = Ok (source_comment self
          ++ [copy _from (prefix self) (prefix self)]
          ++ (if ldconfig self
              then [shell None (library_path_commands ldcache_step self)]
              else [])
          ++ (if nonempty (runtime_environment_variables self)
              then [environment (runtime_environment_variables self)]
              else [])).
Proof.
  unfold runtime_instructions, source_comment, library_path_commands,
    environment_step.
  destruct (ldconfig self).
  - intros [[a ->] [b ->]]; [done|]. cbn [fspath mbind result_bind].
    destruct (given (url self)), (given (repository self)),
      (nonempty (runtime_environment_variables self)); by rewrite <- ?app_assoc.
  - intros _. cbn [mbind result_bind].
    destruct (given (url self)), (given (repository self)),
      (nonempty (runtime_environment_variables self));
      by rewrite <- ?app_assoc, ?app_nil_r.
Qed.

(** [runtime] reads [url], [repository], [prefix], [ldconfig], [libdir]
    and [runtime_environment_variables], and nothing else. *)
Lemma runtime_surface self self' _from :
  url self' = url self → repository self' = repository self →
  prefix self' = prefix self → ldconfig self' = ldconfig self →
  libdir self' = libdir self →
  runtime_environment_variables self' = runtime_environment_variables self →
  project self' _from = project self _from.
Proof.
  unfold runtime, runtime_instructions, environment_step.
  by intros -> -> -> -> -> ->.
Qed.

(** [kw] with another [build_environment]. *)
Definition set_build_environment (v : option dict) kw : kwargs Toolchain :=
  {| kw_branch := kw_branch kw; kw_build_directory := kw_build_directory kw;
     kw_build_environment := v;
     kw_check := kw_check kw; kw_cmake_opts := kw_cmake_opts kw;
     kw_commit := kw_commit kw;
     kw_devel_environment := kw_devel_environment kw;
     kw_directory := kw_directory kw; kw_install := kw_install kw;
     kw_ldconfig := kw_ldconfig kw; kw_libdir := kw_libdir kw;
     kw_make := kw_make kw; kw_postinstall := kw_postinstall kw;
     kw_preconfigure := kw_preconfigure kw; kw_prefix := kw_prefix kw;
     kw_recursive := kw_recursive kw; kw_repository := kw_repository kw;
     kw__run_arguments := kw__run_arguments kw;
     kw_runtime_environment := kw_runtime_environment kw;
     kw_toolchain := kw_toolchain kw; kw_url := kw_url kw |}.

Lemma nonempty_Permutation {A} (l l' : list A) :
  l ≡ₚ l' → nonempty l = nonempty l'.
Proof.
  intros Hp. destruct l, l'; try done.
  - by apply Permutation_nil_cons in Hp.
  - symmetry in Hp. by apply Permutation_nil_cons in Hp.
Qed.

(** The order in which [build_environment] lists its items changes neither
    the commands nor the instructions. *)
Lemma init_build_environment_order kw self be' self' :
  new kw = Ok self → build_environment self ≡ₚ be' →
  new (set_build_environment (Some be') kw) = Ok self' →
  commands self' = commands self ∧ instructions self' = instructions self.
Proof.
  intros (_ & _ & ->)%init_Ok Hp (_ & _ & ->)%init_Ok.
  cbn [build_environment finished] in Hp.
  cbn [commands instructions finished].
  assert (∀ d d',
    d = d' →
    command_list
      (attributes Toolchain default_toolchain
         (set_build_environment (Some be') kw)) d
    = command_list (attributes Toolchain default_toolchain kw) d') as Hcmd.
  { intros d ? <-.
    unfold command_list, steps_after_fetch, fetch_step, configure_command,
      preconfigure_commands, cleanup_command, cleanup_items,
      build_environment_assignments.
    cbn [attributes set_build_environment state_of url repository branch
         commit recursive wd preconfigure src_directory cmake_opts prefix
         inherited_prefix build_directory build_environment toolchain get
         kw_url kw_repository kw_branch kw_commit kw_recursive
         kw_preconfigure kw_cmake_opts kw_prefix kw_build_directory
         kw_build_environment kw_toolchain].
    cbn [attributes build_environment] in Hp.
    by rewrite <- (nonempty_Permutation _ _ Hp),
      <- (sorted_order_independent _ _ Hp). }
  rewrite (Hcmd _ _ eq_refl). done.
Qed.

(** ** The claims *)

(** C1. For every build specification the command list of the build stage
    is, in this order: the fetch step; the change to the source directory
    and the preconfigure commands if [preconfigure] is non-empty; the
    configure step; the build step if [make]; the check step if [check];
    the install step if [install]; the change to the prefix and the
    postinstall commands if [postinstall] is non-empty; the linker-cache
    registration if [ldconfig]; the cleanup step. The order is the same for
    all keyword arguments, which only decide which steps are present. *)
Theorem command_order kw self :
  new kw = Ok self →
  commands self
  = [fetch_step download_command self]
      ++ (if nonempty (preconfigure self)
          then ("cd " +:+ format (src_directory self)) :: preconfigure self
          else [])
      ++ [configure_command configure_step self]
      ++ (if make self then [build_step None] else [])
      ++ (if check self then [build_step (Some "check")] else [])
      ++ (if install self then [build_step (Some "install")] else [])
      ++ (if nonempty (postinstall self)
          then ("cd " +:+ format (prefix self)) :: postinstall self
          else [])
      ++ library_path_commands ldcache_step self
      ++ [cleanup_command cleanup_step self]
  ∧ (if ldconfig self
     then ∃ a b, prefix self = Some a ∧ libdir self = Some b
                 ∧ library_path_commands ldcache_step self
                   = [ldcache_step (posixpath.join a b)]
     else library_path_commands ldcache_step self = [])
  ∧ before_setup self = attributes Toolchain default_toolchain kw.
Proof.
  intros Hnew. split; [|split].
  - apply (init_commands _ _ Hnew).
  - destruct (ldconfig self) eqn:Hld.
    + by apply (init_library_path kw).
    + unfold library_path_commands. by rewrite Hld.
  - by apply init_attributes.
Qed.

(** C10. With [make], [check], [install] and [ldconfig] false and no
    preconfigure or postinstall commands, the command list is exactly the
    fetch step, the configure step and the cleanup step. These three are
    unconditional: the command list of every block starts with the fetch
    step, contains the configure step and ends with the cleanup step, so it
    is never empty. *)
Theorem minimal_command_list kw self :
  new kw = Ok self →
  (make self = false → check self = false → install self = false →
   ldconfig self = false → preconfigure self = [] → postinstall self = [] →
   commands self
   = [fetch_step download_command self;
      configure_command configure_step self;
      cleanup_command cleanup_step self])
  ∧ commands self ≠ []
  ∧ head (commands self) = Some (fetch_step download_command self)
  ∧ configure_command configure_step self ∈ commands self
  ∧ last (commands self) = Some (cleanup_command cleanup_step self).
Proof.
  intros Hnew. split; [|split].
  - intros Hmake Hcheck Hinstall Hld Hpre Hpost.
    rewrite (init_commands _ _ Hnew).
    unfold preconfigure_commands, make_commands, check_commands,
      install_commands, postinstall_commands, library_path_commands.
    by rewrite Hmake, Hcheck, Hinstall, Hld, Hpre, Hpost.
  - by rewrite (init_commands _ _ Hnew).
  - by apply (init_commands_ends kw).
Qed.

(** C7. When [preconfigure] is non-empty the command list holds, right
    after the fetch step, the change to the resolved source directory
    immediately followed by the preconfigure commands; when [postinstall]
    is non-empty it holds the change to the install prefix immediately
    followed by the postinstall commands, after the install step and before
    the linker-cache and cleanup steps. The first directory is always
    [src_directory], the second always [prefix]. *)
Theorem working_directories kw self :
  new kw = Ok self →
  src_directory self = Some (resolved_directory self (downloaded self))
  ∧ (preconfigure self ≠ [] →
     ∃ rest,
       commands self
       = [fetch_step download_command self]
           ++ ["cd " +:+ resolved_directory self (downloaded self)]
           ++ preconfigure self ++ rest)
  ∧ (postinstall self ≠ [] →
     ∃ front,
       commands self
       = front ++ ["cd " +:+ format (prefix self)] ++ postinstall self
           ++ library_path_commands ldcache_step self
           ++ [cleanup_command cleanup_step self]
       ∧ front
         = [fetch_step download_command self]
             ++ preconfigure_commands self
             ++ [configure_command configure_step self]
             ++ make_commands build_step self
             ++ check_commands build_step self
             ++ install_commands build_step self).
Proof.
  intros Hnew. destruct (init_src_directory _ _ Hnew) as [Hsrc _].
  split; [done|]. split.
  - intros Hpre. eexists. rewrite (init_commands _ _ Hnew).
    unfold preconfigure_commands. rewrite Hsrc at 1.
    destruct (preconfigure self) as [|c cs]; [done|].
    cbn [nonempty format app]. reflexivity.
  - intros Hpost. eexists. split; [|reflexivity].
    rewrite (init_commands _ _ Hnew). unfold postinstall_commands at 1.
    destruct (postinstall self) as [|c cs]; [done|].
    cbn [nonempty]. rewrite <- !app_assoc. reflexivity.
Qed.

(** C3. The list handed to the cleanup step, the last command, starts
    with the source directory; next comes the archive, the basename of the
    URL under the working directory ['/var/tmp'], exactly when [url] is
    given; last comes the build directory, exactly when it is a non-empty
    absolute path. A relative build directory adds no entry, and when
    [directory] is given it is not in the list at all. *)
Theorem cleanup_paths kw self :
  new kw = Ok self →
  last (commands self) = Some (cleanup_step (cleanup_items self))
  ∧ cleanup_items self
    = [Some (resolved_directory self (downloaded self))]
        ++ match truthy (url self) with
           | Some u =>
               [Some (posixpath.join "/var/tmp" (posixpath.basename u))]
           | None => []
           end
        ++ match truthy (build_directory self) with
           | Some b => if posixpath.isabs b then [Some b] else []
           | None => []
           end
  ∧ (∀ b, truthy (build_directory self) = Some b →
          posixpath.isabs b = false →
          is_Some (truthy (directory self)) →
          Some b ∉ cleanup_items self).
Proof.
  intros Hnew. destruct (init_src_directory _ _ Hnew) as [Hsrc Hwd].
  assert (cleanup_items self
    = [Some (resolved_directory self (downloaded self))]
        ++ match truthy (url self) with
           | Some u =>
               [Some (posixpath.join "/var/tmp" (posixpath.basename u))]
           | None => []
           end
        ++ match truthy (build_directory self) with
           | Some b => if posixpath.isabs b then [Some b] else []
           | None => []
           end) as Hitems.
  { unfold cleanup_items. rewrite Hsrc, Hwd.
    destruct (truthy (url self)), (truthy (build_directory self)) as [b|];
      try destruct (posixpath.isabs b); by rewrite ?app_nil_r. }
  split; [by apply (init_commands_ends kw)|]. split; [done|].
  intros b Hb Hrel [d Hd]. rewrite Hitems, Hb, Hrel, app_nil_r.
  unfold resolved_directory. rewrite Hd, Hwd.
  assert (posixpath.isabs
            (if posixpath.isabs d then d else posixpath.join "/var/tmp" d)
          = true) as Habs.
  { destruct (posixpath.isabs d) eqn:E; [done|]. by apply posixpath.join_isabs. }
  intros [Hin|Hin]%elem_of_app.
  - apply list_elem_of_singleton in Hin as [= ->]. congruence.
  - destruct (truthy (url self)) as [u|]; [|by apply elem_of_nil in Hin].
    apply list_elem_of_singleton in Hin as [= ->].
    rewrite posixpath.join_isabs in Hrel; done.
Qed.

(** C4. The configure step is among the commands, and the assignments it
    is given are [KEY=VALUE] for the items of [build_environment] sorted by
    key: the same items, keys in lexicographic order, hence the same
    commands and instructions whatever the order of the mapping; an empty
    mapping gives no assignment. *)
Theorem build_environment_sorted kw self :
  new kw = Ok self →
  configure_command configure_step self ∈ commands self
  ∧ configure_command configure_step self
    = configure_step (cmake_opts self) (prefix self) (build_directory self)
        (src_directory self)
        (assignment <$> sorted (build_environment self)) (toolchain self)
  ∧ sorted (build_environment self) ≡ₚ build_environment self
  ∧ StronglySorted PyStr.le ((sorted (build_environment self)).*1)
  ∧ (build_environment self = [] → build_environment_assignments self = [])
  ∧ (∀ be' self',
       build_environment self ≡ₚ be' →
       new (set_build_environment (Some be') kw) = Ok self' →
       configure_command configure_step self'
       = configure_command configure_step self
       ∧ commands self' = commands self).
Proof.
  intros Hnew. split; [by apply (init_commands_ends kw)|].
  split; [|split; [|split; [|split]]].
  - unfold configure_command, build_environment_assignments.
    by destruct (build_environment self).
  - apply sorted_Permutation.
  - apply sorted_keys.
  - unfold build_environment_assignments. by intros ->.
  - intros be' self' Hp Hnew'.
    destruct (init_build_environment_order _ _ _ _ Hnew Hp Hnew') as [Hc _].
    split; [|done].
    apply init_Ok in Hnew as (_ & _ & ->), Hnew' as (_ & _ & ->).
    cbn [build_environment finished] in Hp.
    unfold configure_command, build_environment_assignments.
    cbn [attributes set_build_environment finished src_directory cmake_opts
         prefix inherited_prefix build_directory build_environment toolchain get
         kw_cmake_opts kw_prefix kw_build_directory kw_build_environment
         kw_toolchain directory wd url repository branch commit recursive
         kw_directory kw_url kw_repository kw_branch kw_commit kw_recursive].
    cbn [attributes build_environment] in Hp.
    by rewrite <- (nonempty_Permutation _ _ Hp),
      <- (sorted_order_independent _ _ Hp).
Qed.

(** C5. When both or neither of [url] and [repository] are given, or
    [branch], [commit] or [recursive] is given without [repository], the
    constructor raises [ConfigurationError]: no object, hence no command
    and no instruction, comes out of it. *)
Theorem invalid_source_raises kw :
  given (kw_url kw) = given (kw_repository kw)
  ∨ (given (kw_branch kw) = true ∨ given (kw_commit kw) = true
     ∨ get (kw_recursive kw) false = true)
    ∧ given (kw_repository kw) = false →
  new kw = Raise ConfigurationError ∧ ∀ self, new kw ≠ Ok self.
Proof.
  intros Hbad.
  assert (new kw = Raise ConfigurationError) as Hraise; [|by rewrite Hraise].
  rewrite init_closed_form. cbn zeta.
  assert (source_rejected (attributes Toolchain default_toolchain kw) = true)
    as Hrej; [|by rewrite Hrej].
  unfold source_rejected.
  cbn [attributes url repository branch commit recursive].
  destruct Hbad as [Heq|[Hdep Hrepo]].
  - by rewrite Heq, bool_decide_eq_true_2.
  - rewrite Hrepo. apply orb_true_iff. right. rewrite andb_true_r.
    destruct Hdep as [-> | [-> | ->]]; by rewrite ?orb_true_r.
Qed.

(** C2. For a block whose [prefix] is a non-empty string, [runtime]
    returns the rendering of: the comment naming the source; the copy of
    [prefix] from the given stage to the same path; the shell instruction
    registering [prefix/libdir] exactly when [ldconfig]; the environment
    instruction of [runtime_environment_variables] exactly when that
    mapping is non-empty. The result is the same for any two blocks whose
    keyword arguments agree on [url], [repository], [prefix], [ldconfig],
    [libdir] and [runtime_environment]: [build_environment],
    [preconfigure], [postinstall], [cmake_opts] and the rest have no part
    in it. *)
Theorem runtime_projection kw self (_from p : string) :
  new kw = Ok self → truthy (prefix self) = Some p →
  prefix self = Some p
  ∧ (∃ src,
       given src = true
       ∧ (src = url self ∨ given (url self) = false ∧ src = repository self)
       ∧ project self _from
         = Ok (Some (PyStr.join nl
             (str <$>
                ([comment src false; copy _from (Some p) (Some p)]
                   ++ (if ldconfig self
                       then [shell None (library_path_commands ldcache_step self)]
                       else [])
                   ++ (if nonempty (runtime_environment_variables self)
                       then [environment (runtime_environment_variables self)]
                       else []))))))
  ∧ (ldconfig self = true →
     ∃ b, libdir self = Some b
          ∧ library_path_commands ldcache_step self
            = [ldcache_step (posixpath.join p b)])
  ∧ (∀ kw' self',
       kw_url kw' = kw_url kw → kw_repository kw' = kw_repository kw →
       kw_prefix kw' = kw_prefix kw → kw_ldconfig kw' = kw_ldconfig kw →
       kw_libdir kw' = kw_libdir kw →
       kw_runtime_environment kw' = kw_runtime_environment kw →
       new kw' = Ok self' →
       project self' _from = project self _from).
Proof.
  intros Hnew Hp.
  assert (prefix self = Some p) as Hprefix.
  { destruct (prefix self) as [[|c q]|]; simpl in Hp; congruence. }
  assert (ldconfig self = true →
          ∃ b, libdir self = Some b
               ∧ library_path_commands ldcache_step self
                 = [ldcache_step (posixpath.join p b)]) as Hlib.
  { intros Hld.
    destruct (init_library_path _ _ Hnew Hld) as (a & b & Ha & Hb & Hcmd).
    exists b. split; [done|]. rewrite Hcmd. congruence. }
  split; [done|]. split; [|split; [done|]].
  - destruct (init_source _ _ Hnew) as [Hone _].
    exists (if given (url self) then url self else repository self).
    split; [|split].
    + destruct (given (url self)) eqn:Hu; [done|].
      by destruct (given (repository self)).
    + destruct (given (url self)); auto.
    + unfold runtime. unfold given at 1. rewrite Hp.
      rewrite runtime_instructions_Ok.
      2:{ intros Hld. destruct (Hlib Hld) as (b & -> & _).
          rewrite Hprefix. eauto. }
      rewrite bind_Ok. do 3 f_equal. rewrite Hprefix.
      unfold source_comment.
      destruct (given (url self)) eqn:Hu; [done|].
      destruct (given (repository self)); [done|]. by destruct Hone.
  - intros kw' self' Hu Hr Hpre Hld He Hrt Hnew'.
    apply init_Ok in Hnew as (_ & _ & ->), Hnew' as (_ & _ & ->).
    apply runtime_surface;
      cbn [attributes finished url repository prefix ldconfig libdir
           runtime_environment_variables];
      unfold inherited_prefix, inherited_ldconfig; congruence.
Qed.

(** A call of [runtime] on an object: the value it returns and the object
    after the call. Lines 283-299 assign no attribute of [self]. *)
Definition call_runtime self (_from : string)
    : result (option string) * generic_cmake Toolchain :=
  (project self _from, self).

(** The values of [n] successive calls of [runtime] on one object. *)
Fixpoint successive_calls (n : nat) self (_from : string)
    : list (result (option string)) :=
  match n with
  | O => []
  | S n' =>
      let '(r, self') := call_runtime self _from in
      r :: successive_calls n' self' _from
  end.

(** C6. Emission is deterministic. Constructing twice from the same
    keyword arguments gives the same instruction sequence, also when the
    second [build_environment] lists the same items in another order. The
    runtime projection is a function of the specification: any number of
    successive calls return the same value, and that value does not depend
    on the source directory, the command list or the instructions that the
    constructor derived. *)
Theorem emission_deterministic kw self (_from : string) :
  new kw = Ok self →
  (∀ self', new kw = Ok self' → instructions self' = instructions self)
  ∧ (∀ be' self',
       build_environment self ≡ₚ be' →
       new (set_build_environment (Some be') kw) = Ok self' →
       instructions self' = instructions self)
  ∧ (∀ n, successive_calls n self _from = replicate n (project self _from))
  ∧ (∀ d l i, project (finished self d l i) _from = project self _from).
Proof.
  intros Hnew. split; [|split; [|split]].
  - intros self' Hnew'. congruence.
  - intros be' self' Hp Hnew'.
    by destruct (init_build_environment_order _ _ _ _ Hnew Hp Hnew').
  - intros n. induction n as [|n IH]; [done|].
    cbn [successive_calls call_runtime replicate]. by rewrite IH.
  - intros d l i. by apply runtime_surface.
Qed.

(** C8. When [prefix] is [None] or the empty string, [runtime] returns
    [None]: it builds no instruction and raises nothing. *)
Theorem runtime_without_prefix self (_from : string) :
  prefix self = None ∨ prefix self = Some "" →
  runtime Toolchain ldcache_step str self _from = Ok None.
Proof. unfold runtime, given. by intros [-> | ->]. Qed.


(** ** Further properties of the block *)

(** *** Paths *)

Lemma string_app_assoc (a b c : string) : (a +:+ b) +:+ c = a +:+ b +:+ c.
Proof.
  induction a as [|x a IH]; [done|].
  change (String x ((a +:+ b) +:+ c) = String x (a +:+ b +:+ c)).
  by f_equal.
Qed.

Lemma string_app_nil_r (a : string) : a +:+ "" = a.
Proof.
  induction a as [|x a IH]; [done|].
  change (String x (a +:+ "") = String x a). by f_equal.
Qed.

(** Joining a relative name onto a directory that does not end with a
    separator puts exactly one separator between them. *)
Lemma join_relative_name (a b : string) :
  posixpath.isabs b = false → a ≠ "" → posixpath.endswith_sep a = false →
  posixpath.join a b = a +:+ "/" +:+ b.
Proof.
  intros Hb Ha Hsep. unfold posixpath.join.
  by rewrite Hb, Hsep, bool_decide_eq_false_2.
Qed.

Lemma basename_from_name (cur f : string) :
  posixpath.has_sep f = false → posixpath.basename_from cur f = cur +:+ f.
Proof.
  revert cur. induction f as [|c f IH]; intros cur; simpl.
  - intros _. by rewrite string_app_nil_r.
  - intros [Hc Hf]%orb_false_iff. rewrite Hc, (IH _ Hf).
    by rewrite string_app_assoc.
Qed.

Lemma basename_from_dir (cur a f : string) :
  posixpath.has_sep f = false →
  posixpath.basename_from cur (a +:+ "/" +:+ f) = f.
Proof.
  intros Hf. revert cur. induction a as [|c a IH]; intros cur; simpl.
  - by rewrite basename_from_name.
  - by destruct (bool_decide (c = "/"%char)).
Qed.

(** The base name of a name placed in a directory is that name. *)
Lemma basename_in_directory (a f : string) :
  posixpath.has_sep f = false → posixpath.basename (a +:+ "/" +:+ f) = f.
Proof. apply basename_from_dir. Qed.

Lemma name_not_absolute (f : string) :
  posixpath.has_sep f = false → posixpath.isabs f = false.
Proof.
  intros Hf. destruct (posixpath.isabs f) eqn:Habs; [|done].
  apply posixpath.isabs_has_sep in Habs. congruence.
Qed.

(** The list handed to [cleanup_step] by a constructed block. *)
Lemma init_cleanup_items kw self :
  new kw = Ok self →
  cleanup_items self
  = [Some (resolved_directory self (downloaded self))]
      ++ match truthy (url self) with
         | Some u => [Some ("/var/tmp/" +:+ posixpath.basename u)]
         | None => []
         end
      ++ match truthy (build_directory self) with
         | Some b => if posixpath.isabs b then [Some b] else []
         | None => []
         end.
Proof.
  intros Hnew. destruct (init_src_directory _ _ Hnew) as [Hsrc Hwd].
  unfold cleanup_items. rewrite Hsrc, Hwd.
  destruct (truthy (url self)) as [u|], (truthy (build_directory self)) as [b|];
    try destruct (posixpath.isabs b);
    rewrite ?join_relative_name, ?app_nil_r;
    try done; by apply name_not_absolute, posixpath.basename_no_sep.
Qed.

(** X1. The build stage of every constructed block is three instructions:
    the comment naming the source (the URL, or else the repository), one
    shell instruction holding [_run_arguments] and the whole command list,
    and the environment instruction of the devel mapping, which is there
    also when that mapping is empty. *)
Theorem build_stage_instructions kw self :
  new kw = Ok self →
  ∃ src,
    given src = true
    ∧ (src = url self ∨ given (url self) = false ∧ src = repository self)
    ∧ instructions self
      = [comment src false;
         shell (run_arguments self) (commands self);
         environment (environment_variables self)].
Proof.
  intros Hnew. destruct (init_source _ _ Hnew) as [Hone _].
  exists (if given (url self) then url self else repository self).
  split; [|split].
  - destruct (given (url self)) eqn:Hu; [done|].
    by destruct (given (repository self)).
  - destruct (given (url self)); auto.
  - apply init_Ok in Hnew as (_ & _ & ->). revert Hone.
    cbn [instructions commands url repository run_arguments
         environment_variables finished].
    unfold build_stage, source_comment.
    destruct (given (url _)); [done|].
    destruct (given (repository _)); [done|]. by intros [].
Qed.

(** X2. When [directory] is given, the source directory is [directory]
    itself if it is absolute and ['/var/tmp/'] followed by it otherwise,
    whatever the downloader resolved. It is an absolute path, it is the
    first path the cleanup step removes, and it is what the configure step
    is given. *)
Theorem given_directory_resolution kw self (d : string) :
  new kw = Ok self → truthy (directory self) = Some d →
  let p := if posixpath.isabs d then d else "/var/tmp/" +:+ d in
  src_directory self = Some p
  ∧ posixpath.isabs p = true
  ∧ head (cleanup_items self) = Some (Some p)
  ∧ configure_command configure_step self
    = configure_step (cmake_opts self) (prefix self) (build_directory self)
        (Some p) (build_environment_assignments self) (toolchain self).
Proof.
  intros Hnew Hd. destruct (init_src_directory _ _ Hnew) as [Hsrc Hwd].
  assert (resolved_directory self (downloaded self)
          = if posixpath.isabs d then d else "/var/tmp/" +:+ d) as Hres.
  { unfold resolved_directory. rewrite Hd, Hwd.
    destruct (posixpath.isabs d) eqn:Habs; [done|].
    by rewrite join_relative_name. }
  cbn zeta. rewrite <- Hres. split; [done|]. split; [|split].
  - rewrite Hres. by destruct (posixpath.isabs d) eqn:Habs.
  - by rewrite (init_cleanup_items _ _ Hnew).
  - unfold configure_command. by rewrite Hsrc.
Qed.

(** X3. When [directory] is [None] or the empty string, the source
    directory is the one the downloader resolved. *)
Theorem absent_directory_resolution kw self :
  new kw = Ok self → truthy (directory self) = None →
  src_directory self = Some (downloaded self)
  ∧ head (cleanup_items self) = Some (Some (downloaded self)).
Proof.
  intros Hnew Hd. destruct (init_src_directory _ _ Hnew) as [Hsrc _].
  assert (resolved_directory self (downloaded self) = downloaded self) as Hres.
  { unfold resolved_directory. by rewrite Hd. }
  rewrite Hsrc, (init_cleanup_items _ _ Hnew), Hres. done.
Qed.

(** X4. For an archive the second path the cleanup step removes is
    ['/var/tmp/'] followed by the base name of the URL: an absolute path
    directly under the working directory, whose own base name is that of
    the URL. *)
Theorem archive_path kw self (u : string) :
  new kw = Ok self → truthy (url self) = Some u →
  let archive := "/var/tmp/" +:+ posixpath.basename u in
  (∃ rest, cleanup_items self = src_directory self :: Some archive :: rest)
  ∧ posixpath.isabs archive = true
  ∧ posixpath.basename archive = posixpath.basename u
  ∧ posixpath.has_sep (posixpath.basename u) = false.
Proof.
  intros Hnew Hu. destruct (init_src_directory _ _ Hnew) as [Hsrc _].
  cbn zeta. split; [|split; [done|split]].
  - rewrite (init_cleanup_items _ _ Hnew), Hu, Hsrc. eauto.
  - apply (basename_in_directory "/var/tmp"), posixpath.basename_no_sep.
  - apply posixpath.basename_no_sep.
Qed.

(** X5. When [directory] is given, every path handed to the cleanup step
    is an absolute path: nothing relative to the directory the commands
    run in is removed. *)
Theorem cleanup_paths_absolute kw self :
  new kw = Ok self → is_Some (truthy (directory self)) →
  ∀ x, x ∈ cleanup_items self → ∃ p, x = Some p ∧ posixpath.isabs p = true.
Proof.
  intros Hnew [d Hd] x. rewrite (init_cleanup_items _ _ Hnew).
  unfold resolved_directory. rewrite Hd.
  destruct (init_src_directory _ _ Hnew) as [_ ->].
  rewrite !elem_of_app. intros [Hx|[Hx|Hx]].
  - apply list_elem_of_singleton in Hx as ->. eexists. split; [done|].
    destruct (posixpath.isabs d) eqn:Habs; [done|].
    by apply posixpath.join_isabs.
  - destruct (truthy (url self)); [|by apply elem_of_nil in Hx].
    apply list_elem_of_singleton in Hx as ->. eauto.
  - destruct (truthy (build_directory self)) as [b|];
      [|by apply elem_of_nil in Hx].
    destruct (posixpath.isabs b) eqn:Habs; [|by apply elem_of_nil in Hx].
    apply list_elem_of_singleton in Hx as ->. eauto.
Qed.

(** *** The two stages *)

(** X7. The runtime stage of a constructed block starts with the same
    comment as its build stage, and with [ldconfig] its shell instruction
    holds exactly one command: the registration that stands right before
    the cleanup step in the build stage. *)
Theorem runtime_matches_build kw self (_from : string) :
  new kw = Ok self →
  ∃ rt,
    runtime_instructions Toolchain ldcache_step self _from = Ok rt
    ∧ head rt = head (instructions self)
    ∧ (ldconfig self = true →
       ∃ c front,
         shell None [c] ∈ rt
         ∧ commands self = front ++ [c; cleanup_command cleanup_step self]).
Proof.
  intros Hnew. eexists. split; [|split].
  - apply runtime_instructions_Ok. intros Hld.
    destruct (init_library_path _ _ Hnew Hld) as (a & b & -> & -> & _). eauto.
  - destruct (init_source _ _ Hnew) as [Hone _].
    apply init_Ok in Hnew as (_ & _ & ->). revert Hone.
    cbn [instructions url repository finished].
    unfold build_stage, source_comment.
    cbn [url repository finished].
    destruct (given (url _)); [done|].
    destruct (given (repository _)); [done|]. by intros [].
  - intros Hld.
    destruct (init_library_path _ _ Hnew Hld) as (a & b & _ & _ & Hcmd).
    eexists _, _. split.
    + rewrite Hld, Hcmd, !elem_of_app. right; right; left.
      by apply list_elem_of_singleton.
    + rewrite (init_commands _ _ Hnew), Hcmd, !app_assoc.
      rewrite <- (app_assoc _ [ldcache_step _]). reflexivity.
Qed.

(** [kw] with other environment mappings and run arguments. *)
Definition set_environments (devel runtime run : option dict) kw
    : kwargs Toolchain :=
  {| kw_branch := kw_branch kw; kw_build_directory := kw_build_directory kw;
     kw_build_environment := kw_build_environment kw;
     kw_check := kw_check kw; kw_cmake_opts := kw_cmake_opts kw;
     kw_commit := kw_commit kw;
     kw_devel_environment := devel;
     kw_directory := kw_directory kw; kw_install := kw_install kw;
     kw_ldconfig := kw_ldconfig kw; kw_libdir := kw_libdir kw;
     kw_make := kw_make kw; kw_postinstall := kw_postinstall kw;
     kw_preconfigure := kw_preconfigure kw; kw_prefix := kw_prefix kw;
     kw_recursive := kw_recursive kw; kw_repository := kw_repository kw;
     kw__run_arguments := run;
     kw_runtime_environment := runtime;
     kw_toolchain := kw_toolchain kw; kw_url := kw_url kw |}.

(** X8. [devel_environment], [runtime_environment] and [_run_arguments]
    have no part in the shell commands: with any other values for the
    three, the constructor still returns a block, with the same command
    list and the same source directory. *)
Theorem commands_ignore_environment kw self (devel runtime run : option dict) :
  new kw = Ok self →
  ∃ self',
    new (set_environments devel runtime run kw) = Ok self'
    ∧ commands self' = commands self
    ∧ src_directory self' = src_directory self.
Proof.
  intros (Hrej & Hlib & ->)%init_Ok.
  rewrite init_closed_form. cbn zeta.
  assert (source_rejected
            (attributes Toolchain default_toolchain
               (set_environments devel runtime run kw))
          = source_rejected (attributes Toolchain default_toolchain kw))
    as -> by done.
  assert (library_path_fails
            (attributes Toolchain default_toolchain
               (set_environments devel runtime run kw))
          = library_path_fails (attributes Toolchain default_toolchain kw))
    as -> by done.
  rewrite Hrej, Hlib. eexists. split; [reflexivity|]. done.
Qed.

(** [kw] with another [libdir]. *)
Definition set_libdir (v : option pystr) kw : kwargs Toolchain :=
  {| kw_branch := kw_branch kw; kw_build_directory := kw_build_directory kw;
     kw_build_environment := kw_build_environment kw;
     kw_check := kw_check kw; kw_cmake_opts := kw_cmake_opts kw;
     kw_commit := kw_commit kw;
     kw_devel_environment := kw_devel_environment kw;
     kw_directory := kw_directory kw; kw_install := kw_install kw;
     kw_ldconfig := kw_ldconfig kw; kw_libdir := v;
     kw_make := kw_make kw; kw_postinstall := kw_postinstall kw;
     kw_preconfigure := kw_preconfigure kw; kw_prefix := kw_prefix kw;
     kw_recursive := kw_recursive kw; kw_repository := kw_repository kw;
     kw__run_arguments := kw__run_arguments kw;
     kw_runtime_environment := kw_runtime_environment kw;
     kw_toolchain := kw_toolchain kw; kw_url := kw_url kw |}.

(** X9. Without [ldconfig], [libdir] is never read: with any other value
    for it, [None] included, the constructor returns a block with the same
    commands and instructions, and [runtime] returns the same value. *)
Theorem libdir_unused_without_ldconfig kw self (v : option pystr)
    (_from : string) :
  new kw = Ok self → ldconfig self = false →
  ∃ self',
    new (set_libdir v kw) = Ok self'
    ∧ commands self' = commands self
    ∧ instructions self' = instructions self
    ∧ runtime Toolchain ldcache_step str self' _from
      = runtime Toolchain ldcache_step str self _from.
Proof.
  intros (Hrej & Hlib & ->)%init_Ok. cbn [ldconfig finished]. intros Hld.
  rewrite init_closed_form. cbn zeta.
  assert (source_rejected
            (attributes Toolchain default_toolchain (set_libdir v kw))
          = source_rejected (attributes Toolchain default_toolchain kw))
    as -> by done.
  assert (library_path_fails
            (attributes Toolchain default_toolchain (set_libdir v kw))
          = false) as ->.
  { unfold library_path_fails. cbn [attributes ldconfig] in Hld |- *.
    unfold inherited_ldconfig in Hld |- *.
    cbn [set_libdir kw_ldconfig]. by rewrite Hld. }
  rewrite Hrej. eexists. split; [reflexivity|].
  assert (∀ d,
    command_list
      (attributes Toolchain default_toolchain (set_libdir v kw)) d
    = command_list (attributes Toolchain default_toolchain kw) d) as Hcmd.
  { intros d. unfold command_list, steps_after_fetch, library_path_commands.
    cbn [ldconfig state_of].
    cbn [attributes ldconfig] in Hld |- *.
    unfold inherited_ldconfig in Hld |- *.
    cbn [set_libdir kw_ldconfig]. by rewrite Hld. }
  cbn [commands instructions finished]. rewrite Hcmd.
  split; [done|]. split; [done|].
  unfold runtime, runtime_instructions.
  cbn [prefix ldconfig url repository runtime_environment_variables finished
       environment_step].
  cbn [attributes ldconfig] in Hld |- *.
  unfold inherited_ldconfig in Hld |- *.
  cbn [set_libdir kw_ldconfig]. by rewrite Hld.
Qed.

(** *** Defaults and edges *)

(** Rewrites the attribute [proj self] with its default, given that the
    block has the attributes of [kw] ([Hnew]) and that the key is absent
    ([Hkey]). *)
Local Ltac read_attribute proj Hnew Hkey :=
  let H := fresh in
  pose proof (f_equal proj Hnew) as H;
  cbn [finished attributes build_directory build_environment check
       cmake_opts install ldconfig make postinstall preconfigure toolchain]
    in H;
  unfold inherited_ldconfig in H; rewrite Hkey in H; cbn [get] in H; rewrite H; clear H.

(** X10. With only the source, [directory] and [prefix] chosen, the
    command list is: fetch, configure in the build directory ['build'] with
    no assignment, no option and the default toolchain, build, install,
    cleanup. There is no check and no linker-cache step, and the relative
    build directory is not among the removed paths. *)
Theorem default_steps kw self :
  new kw = Ok self →
  kw_build_directory kw = None → kw_build_environment kw = None →
  kw_check kw = None → kw_cmake_opts kw = None → kw_install kw = None →
  kw_ldconfig kw = None → kw_make kw = None → kw_postinstall kw = None →
  kw_preconfigure kw = None → kw_toolchain kw = None →
  commands self
  = [fetch_step download_command self;
     configure_step [] (prefix self) (Some "build") (src_directory self) []
       default_toolchain;
     build_step None;
     build_step (Some "install");
     cleanup_step
       (src_directory self
          :: match truthy (url self) with
             | Some u => [Some ("/var/tmp/" +:+ posixpath.basename u)]
             | None => []
             end)].
Proof.
  intros Hnew Hbd Hbe Hcheck Hopts Hinstall Hld Hmake Hpost Hpre Htc.
  rewrite (init_commands _ _ Hnew).
  unfold preconfigure_commands, configure_command, make_commands,
    check_commands, install_commands, postinstall_commands,
    library_path_commands, cleanup_command, build_environment_assignments.
  rewrite (init_cleanup_items _ _ Hnew).
  destruct (init_src_directory _ _ Hnew) as [Hsrc _]. rewrite <- Hsrc.
  apply init_attributes in Hnew. unfold before_setup in Hnew.
  read_attribute (@build_directory Toolchain) Hnew Hbd.
  read_attribute (@build_environment Toolchain) Hnew Hbe.
  read_attribute (@check Toolchain) Hnew Hcheck.
  read_attribute (@cmake_opts Toolchain) Hnew Hopts.
  read_attribute (@install Toolchain) Hnew Hinstall.
  read_attribute (@ldconfig Toolchain) Hnew Hld.
  read_attribute (@make Toolchain) Hnew Hmake.
  read_attribute (@postinstall Toolchain) Hnew Hpost.
  read_attribute (@preconfigure Toolchain) Hnew Hpre.
  read_attribute (@toolchain Toolchain) Hnew Htc.
  cbn [nonempty truthy].
  assert (posixpath.isabs "build" = false) as -> by done.
  by rewrite app_nil_r.
Qed.


(** X12. The assignments handed to the configure step are one per item
    of [build_environment]: none is dropped or added, and every item
    [(key, val)] is there as [key=val]. *)
Theorem assignments_complete self :
  length (build_environment_assignments self)
  = length (build_environment self)
  ∧ ∀ key val,
      (key, val) ∈ build_environment self →
      key +:+ "=" +:+ val ∈ build_environment_assignments self.
Proof.
  unfold build_environment_assignments.
  destruct (build_environment self) as [|item items] eqn:Hbe.
  { split; [done|]. intros key val Hin. by apply elem_of_nil in Hin. }
  cbn [nonempty]. split.
  - by rewrite length_fmap, sorted_Permutation.
  - intros key val Hin. apply list_elem_of_fmap.
    exists (key, val). split; [done|]. by rewrite sorted_Permutation.
Qed.

(** X13. An absolute [libdir] replaces the prefix: with [ldconfig], the
    registered directory is then [libdir] itself, not a directory under
    [prefix]. A relative [libdir] is put under a prefix that does not end
    with a separator, after one separator. *)
Theorem absolute_libdir_replaces_prefix kw self (a b : string) :
  new kw = Ok self → ldconfig self = true →
  prefix self = Some a → libdir self = Some b →
  ldcache_step (posixpath.join a b) ∈ commands self
  ∧ (posixpath.isabs b = true → posixpath.join a b = b)
  ∧ (posixpath.isabs b = false → a ≠ "" →
     posixpath.endswith_sep a = false →
     posixpath.join a b = a +:+ "/" +:+ b).
Proof.
  intros Hnew Hld Ha Hb. split; [|split].
  - destruct (init_library_path _ _ Hnew Hld) as (a' & b' & Ha' & Hb' & Hcmd).
    assert (a' = a) as -> by congruence. assert (b' = b) as -> by congruence.
    rewrite (init_commands _ _ Hnew), Hcmd, !elem_of_app.
    do 7 right. left. by apply list_elem_of_singleton.
  - intros Habs. unfold posixpath.join. by rewrite Habs.
  - apply join_relative_name.
Qed.

End Properties.

(** * Examples

    The model run on concrete keyword arguments, with the providers of
    [Sample]. *)

Module Examples.

Import Sample.

(** An archive build with every optional step. *)
Definition full : kwargs unit :=
  {| kw_branch := None; kw_build_directory := None;
     kw_build_environment := Some [("CC", "gcc"); ("AR", "ar")];
     kw_check := Some true;
     kw_cmake_opts := Some ["-D A=ON"; "-D B=OFF"];
     kw_commit := None;
     kw_devel_environment := Some [("A", "1")];
     kw_directory := None; kw_install := None;
     kw_ldconfig := Some true; kw_libdir := Some (Some "lib64");
     kw_make := None;
     kw_postinstall := Some ["echo post"];
     kw_preconfigure := Some ["echo pre"];
     kw_prefix := Some (Some "/usr/local/pkg");
     kw_recursive := None; kw_repository := None;
     kw__run_arguments := None; kw_runtime_environment := None;
     kw_toolchain := None;
     kw_url := Some "https://x/y/pkg-1.0.tar.gz" |}.

(** [full] with the items of [build_environment] in the other order. *)
Definition full_reordered : kwargs unit :=
  set_build_environment (Some [("AR", "ar"); ("CC", "gcc")]) full.

(** A repository build with every optional step switched off. *)
Definition minimal : kwargs unit :=
  {| kw_branch := Some "v0.8.0"; kw_build_directory := None;
     kw_build_environment := None; kw_check := None; kw_cmake_opts := None;
     kw_commit := None; kw_devel_environment := None; kw_directory := None;
     kw_install := Some false; kw_ldconfig := None; kw_libdir := None;
     kw_make := Some false; kw_postinstall := None; kw_preconfigure := None;
     kw_prefix := Some (Some "/usr/local/quda"); kw_recursive := None;
     kw_repository := Some "https://github.com/lattice/quda.git";
     kw__run_arguments := None; kw_runtime_environment := None;
     kw_toolchain := None; kw_url := None |}.

(** An archive build in a given source directory, with a build directory
    [bd]. *)
Definition in_directory (bd : string) : kwargs unit :=
  {| kw_branch := None; kw_build_directory := Some (Some bd);
     kw_build_environment := None; kw_check := None; kw_cmake_opts := None;
     kw_commit := None; kw_devel_environment := None;
     kw_directory := Some "pkg-1.0";
     kw_install := None; kw_ldconfig := None; kw_libdir := None;
     kw_make := None; kw_postinstall := None; kw_preconfigure := None;
     kw_prefix := None; kw_recursive := None; kw_repository := None;
     kw__run_arguments := None; kw_runtime_environment := None;
     kw_toolchain := None;
     kw_url := Some "https://x/y/pkg-1.0.tar.gz" |}.

(** Both an archive and a repository. *)
Definition both_sources : kwargs unit :=
  {| kw_branch := None; kw_build_directory := None;
     kw_build_environment := None; kw_check := None; kw_cmake_opts := None;
     kw_commit := None; kw_devel_environment := None; kw_directory := None;
     kw_install := None; kw_ldconfig := None; kw_libdir := None;
     kw_make := None; kw_postinstall := None; kw_preconfigure := None;
     kw_prefix := None; kw_recursive := None;
     kw_repository := Some "https://github.com/lattice/quda.git";
     kw__run_arguments := None; kw_runtime_environment := None;
     kw_toolchain := None;
     kw_url := Some "https://x/y/pkg-1.0.tar.gz" |}.

(** An archive build with the given [prefix], [ldconfig] and [libdir]. *)
Definition installed (prefix : option pystr) (ldconfig : bool)
    (libdir : option pystr) : kwargs unit :=
  {| kw_branch := None; kw_build_directory := None;
     kw_build_environment := None; kw_check := None; kw_cmake_opts := None;
     kw_commit := None; kw_devel_environment := None; kw_directory := None;
     kw_install := None; kw_ldconfig := Some ldconfig; kw_libdir := libdir;
     kw_make := None; kw_postinstall := None; kw_preconfigure := None;
     kw_prefix := prefix; kw_recursive := None; kw_repository := None;
     kw__run_arguments := None; kw_runtime_environment := None;
     kw_toolchain := None;
     kw_url := Some "https://x/y/pkg-1.0.tar.gz" |}.

(** The block the constructor returns, when it returns one. *)
Definition built (kw : kwargs unit) : generic_cmake unit :=
  match new kw with
  | Ok self => self
  | Raise _ => attributes unit tt kw
  end.

(** The blocks of the examples. *)
Definition full_block : generic_cmake unit :=
  Eval vm_compute in built full.
Definition full_reordered_block : generic_cmake unit :=
  Eval vm_compute in built full_reordered.
Definition minimal_block : generic_cmake unit :=
  Eval vm_compute in built minimal.
Definition relative_block : generic_cmake unit :=
  Eval vm_compute in built (in_directory "build").
Definition absolute_block : generic_cmake unit :=
  Eval vm_compute in built (in_directory "/var/tmp/xyz/build").
Definition default_block : generic_cmake unit :=
  Eval vm_compute in built (installed None false None).
Definition no_prefix_block : generic_cmake unit :=
  Eval vm_compute in built (installed (Some None) false None).
Definition empty_prefix_block : generic_cmake unit :=
  Eval vm_compute in built (installed (Some (Some "")) false None).

(** Closes a goal that holds by evaluation. *)
Ltac run := vm_compute; reflexivity.

Local Abbreviation at_sample thm :=
  (thm tt download_command download_directory configure_step build_step
     ldcache_step cleanup_step).

(** With the default prefix ['/usr/local'] the runtime projection is not
    empty. *)
Example default_prefix_runtime :
  new (installed None false None) = Ok default_block
  ∧ prefix default_block = Some "/usr/local"
  ∧ runtime default_block "0"
    = Ok (Some (PyStr.join nl
        ["# https://x/y/pkg-1.0.tar.gz";
         "COPY --from=0 /usr/local /usr/local"])).
Proof. repeat split; run. Qed.

Lemma command_order_witness :
  new full = Ok full_block
  ∧ commands full_block
    = ["fetch https://x/y/pkg-1.0.tar.gz into /var/tmp";
       "cd /var/tmp/pkg-1.0.tar.gz.src"; "echo pre";
       "cd build && AR=ar CC=gcc cmake -DCMAKE_INSTALL_PREFIX=/usr/local/pkg -D A=ON -D B=OFF /var/tmp/pkg-1.0.tar.gz.src";
       "make"; "make check"; "make install";
       "cd /usr/local/pkg"; "echo post";
       "ldconfig /usr/local/pkg/lib64";
       "rm -rf /var/tmp/pkg-1.0.tar.gz.src /var/tmp/pkg-1.0.tar.gz"].
Proof.
  split; [run|].
  destruct (at_sample command_order full full_block ltac:(run)) as [H _].
  vm_compute in H. exact H.
Defined.

Lemma minimal_command_list_witness :
  new minimal = Ok minimal_block
  ∧ commands minimal_block
    = ["fetch https://github.com/lattice/quda.git into /var/tmp";
       "cd build && cmake -DCMAKE_INSTALL_PREFIX=/usr/local/quda /var/tmp/quda.git.src";
       "rm -rf /var/tmp/quda.git.src"].
Proof.
  split; [run|].
  destruct (at_sample minimal_command_list minimal minimal_block ltac:(run))
    as [H _].
  specialize (H eq_refl eq_refl eq_refl eq_refl eq_refl eq_refl).
  vm_compute in H. exact H.
Defined.

Lemma working_directories_witness :
  new full = Ok full_block
  ∧ (∃ rest,
       commands full_block
       = ["fetch https://x/y/pkg-1.0.tar.gz into /var/tmp";
          "cd /var/tmp/pkg-1.0.tar.gz.src"; "echo pre"] ++ rest)
  ∧ (∃ front,
       commands full_block
       = front ++ ["cd /usr/local/pkg"; "echo post";
                   "ldconfig /usr/local/pkg/lib64";
                   "rm -rf /var/tmp/pkg-1.0.tar.gz.src /var/tmp/pkg-1.0.tar.gz"]).
Proof.
  split; [run|].
  destruct (at_sample working_directories full full_block ltac:(run))
    as (_ & Hpre & Hpost).
  split.
  - destruct (Hpre ltac:(discriminate)) as [rest Hrest].
    exists rest. vm_compute in Hrest. exact Hrest.
  - destruct (Hpost ltac:(discriminate)) as (front & Hfront & _).
    exists front. vm_compute in Hfront. exact Hfront.
Defined.

Lemma cleanup_paths_witness :
  new (in_directory "build") = Ok relative_block
  ∧ cleanup_items relative_block
    = [Some "/var/tmp/pkg-1.0"; Some "/var/tmp/pkg-1.0.tar.gz"]
  ∧ (Some "build" ∉ cleanup_items relative_block)
  ∧ new (in_directory "/var/tmp/xyz/build") = Ok absolute_block
  ∧ cleanup_items absolute_block
    = [Some "/var/tmp/pkg-1.0"; Some "/var/tmp/pkg-1.0.tar.gz";
       Some "/var/tmp/xyz/build"].
Proof.
  split; [run|].
  destruct (at_sample cleanup_paths (in_directory "build") relative_block
              ltac:(run)) as (_ & Hrel & Hnot).
  destruct (at_sample cleanup_paths (in_directory "/var/tmp/xyz/build")
              absolute_block ltac:(run)) as (_ & Habs & _).
  split; [vm_compute in Hrel; exact Hrel|].
  split; [|split; [run|vm_compute in Habs; exact Habs]].
  apply (Hnot "build"); [run|run|].
  exists "pkg-1.0". run.
Defined.

Lemma build_environment_sorted_witness :
  new full = Ok full_block
  ∧ new full_reordered = Ok full_reordered_block
  ∧ configure_command configure_step full_block
    = "cd build && AR=ar CC=gcc cmake -DCMAKE_INSTALL_PREFIX=/usr/local/pkg -D A=ON -D B=OFF /var/tmp/pkg-1.0.tar.gz.src"
  ∧ commands full_reordered_block = commands full_block.
Proof.
  split; [run|]. split; [run|].
  destruct (at_sample build_environment_sorted full full_block ltac:(run))
    as (_ & Hconf & _ & _ & _ & Horder).
  split.
  - vm_compute in Hconf. vm_compute. exact Hconf.
  - exact (proj2 (Horder [("AR", "ar"); ("CC", "gcc")] full_reordered_block
                    (perm_swap _ _ []) ltac:(run))).
Defined.

Lemma invalid_source_raises_witness :
  given (kw_url both_sources) = given (kw_repository both_sources)
  ∧ new both_sources = Raise ConfigurationError.
Proof.
  split; [run|].
  exact (proj1 (at_sample invalid_source_raises both_sources
                  (or_introl eq_refl))).
Defined.

Lemma runtime_projection_witness :
  new full = Ok full_block
  ∧ truthy (prefix full_block) = Some "/usr/local/pkg"
  ∧ runtime full_block "0"
    = Ok (Some (PyStr.join nl
        ["# https://x/y/pkg-1.0.tar.gz";
         "COPY --from=0 /usr/local/pkg /usr/local/pkg";
         "RUN ldconfig /usr/local/pkg/lib64"])).
Proof.
  split; [run|]. split; [run|].
  destruct (at_sample runtime_projection str full full_block "0"
              "/usr/local/pkg" ltac:(run) ltac:(run))
    as (_ & (src & _ & Hsrc & Hrun) & _).
  destruct Hsrc as [-> | [Hurl _]]; [|discriminate Hurl].
  vm_compute in Hrun. vm_compute. exact Hrun.
Defined.

Lemma emission_deterministic_witness :
  new full = Ok full_block
  ∧ new full_reordered = Ok full_reordered_block
  ∧ instructions full_reordered_block = instructions full_block
  ∧ successive_calls ldcache_step str 3 full_block "0"
    = replicate 3 (runtime full_block "0").
Proof.
  split; [run|]. split; [run|].
  destruct (at_sample emission_deterministic str full full_block "0"
              ltac:(run)) as (_ & Horder & Hcalls & _).
  split; [|exact (Hcalls 3)].
  exact (Horder [("AR", "ar"); ("CC", "gcc")] full_reordered_block
           (perm_swap _ _ []) ltac:(run)).
Defined.

Lemma runtime_without_prefix_witness :
  new (installed (Some None) false None) = Ok no_prefix_block
  ∧ prefix no_prefix_block = None
  ∧ runtime no_prefix_block "0" = Ok None
  ∧ new (installed (Some (Some "")) false None) = Ok empty_prefix_block
  ∧ prefix empty_prefix_block = Some ""
  ∧ runtime empty_prefix_block "0" = Ok None.
Proof.
  split; [run|]. split; [run|]. split; [|split; [run|split; [run|]]].
  - exact (runtime_without_prefix ldcache_step str no_prefix_block "0"
             (or_introl eq_refl)).
  - exact (runtime_without_prefix ldcache_step str empty_prefix_block "0"
             (or_intror eq_refl)).
Defined.


End Examples.

(** * Further examples *)

Module MoreExamples.

Import Sample Examples.

Local Abbreviation at_sample thm :=
  (thm tt download_command download_directory configure_step build_step
     ldcache_step cleanup_step).

(** An archive and nothing else. *)
Definition archive_only : kwargs unit :=
  {| kw_branch := None; kw_build_directory := None;
     kw_build_environment := None; kw_check := None; kw_cmake_opts := None;
     kw_commit := None; kw_devel_environment := None; kw_directory := None;
     kw_install := None; kw_ldconfig := None; kw_libdir := None;
     kw_make := None; kw_postinstall := None; kw_preconfigure := None;
     kw_prefix := None; kw_recursive := None; kw_repository := None;
     kw__run_arguments := None; kw_runtime_environment := None;
     kw_toolchain := None;
     kw_url := Some "https://x/y/pkg-1.0.tar.gz" |}.


(** [full] with other environment mappings and run arguments. *)
Definition full_other_environment : kwargs unit :=
  set_environments None (Some [("PATH", "/usr/local/pkg/bin")])
    (Some [("--mount", "type=cache")]) full.

Definition archive_only_block : generic_cmake unit :=
  Eval vm_compute in built archive_only.
Definition full_other_environment_block : generic_cmake unit :=
  Eval vm_compute in built full_other_environment.
Definition minimal_no_libdir_block : generic_cmake unit :=
  Eval vm_compute in built (set_libdir (Some None) minimal).
Definition default_libdir_block : generic_cmake unit :=
  Eval vm_compute in built (installed None true None).
Definition absolute_libdir_block : generic_cmake unit :=
  Eval vm_compute in built (installed None true (Some (Some "/opt/lib"))).

(** With [ldconfig] and no [libdir] keyword, ['lib'] under the prefix is
    registered. *)
Example default_libdir_registration :
  new (installed None true None) = Ok default_libdir_block
  ∧ libdir default_libdir_block = Some "lib"
  ∧ commands default_libdir_block
    = ["fetch https://x/y/pkg-1.0.tar.gz into /var/tmp";
       "cd build && cmake -DCMAKE_INSTALL_PREFIX=/usr/local /var/tmp/pkg-1.0.tar.gz.src";
       "make"; "make install"; "ldconfig /usr/local/lib";
       "rm -rf /var/tmp/pkg-1.0.tar.gz.src /var/tmp/pkg-1.0.tar.gz"].
Proof. repeat split; run. Qed.

Lemma build_stage_instructions_witness :
  new full = Ok full_block
  ∧ instructions full_block
    = [comment (Some "https://x/y/pkg-1.0.tar.gz") false;
       shell None (commands full_block);
       environment [("A", "1")]].
Proof.
  split; [run|].
  destruct (at_sample build_stage_instructions full full_block ltac:(run))
    as (src & _ & Hsrc & Hinstr).
  destruct Hsrc as [-> | [Hurl _]]; [|discriminate Hurl].
  vm_compute in Hinstr. vm_compute. exact Hinstr.
Defined.

Lemma given_directory_resolution_witness :
  new (in_directory "build") = Ok relative_block
  ∧ truthy (directory relative_block) = Some "pkg-1.0"
  ∧ src_directory relative_block = Some "/var/tmp/pkg-1.0"
  ∧ head (cleanup_items relative_block) = Some (Some "/var/tmp/pkg-1.0").
Proof.
  split; [run|]. split; [run|].
  destruct (at_sample given_directory_resolution (in_directory "build")
              relative_block "pkg-1.0" ltac:(run) ltac:(run))
    as (Hsrc & _ & Hhead & _).
  split; [exact Hsrc|exact Hhead].
Defined.

Lemma absent_directory_resolution_witness :
  new full = Ok full_block
  ∧ truthy (directory full_block) = None
  ∧ src_directory full_block = Some "/var/tmp/pkg-1.0.tar.gz.src".
Proof.
  split; [run|]. split; [run|].
  destruct (at_sample absent_directory_resolution full full_block
              ltac:(run) ltac:(run)) as [Hsrc _].
  vm_compute in Hsrc. exact Hsrc.
Defined.

Lemma archive_path_witness :
  new full = Ok full_block
  ∧ truthy (url full_block) = Some "https://x/y/pkg-1.0.tar.gz"
  ∧ (∃ rest,
       cleanup_items full_block
       = Some "/var/tmp/pkg-1.0.tar.gz.src"
           :: Some "/var/tmp/pkg-1.0.tar.gz" :: rest)
  ∧ posixpath.basename "/var/tmp/pkg-1.0.tar.gz" = "pkg-1.0.tar.gz".
Proof.
  split; [run|]. split; [run|].
  destruct (at_sample archive_path full full_block
              "https://x/y/pkg-1.0.tar.gz" ltac:(run) ltac:(run))
    as ([rest Hrest] & _ & Hbase & _).
  split; [exists rest|].
  - vm_compute in Hrest. vm_compute. exact Hrest.
  - vm_compute in Hbase. vm_compute. exact Hbase.
Defined.

Lemma cleanup_paths_absolute_witness :
  new (in_directory "/var/tmp/xyz/build") = Ok absolute_block
  ∧ is_Some (truthy (directory absolute_block))
  ∧ ∃ p, Some "/var/tmp/xyz/build" = Some p ∧ posixpath.isabs p = true.
Proof.
  split; [run|].
  assert (is_Some (truthy (directory absolute_block))) as Hdir.
  { exists "pkg-1.0". run. }
  split; [exact Hdir|].
  apply (at_sample cleanup_paths_absolute (in_directory "/var/tmp/xyz/build")
           absolute_block ltac:(run) Hdir).
  apply list_elem_of_In. vm_compute. tauto.
Defined.

Lemma runtime_matches_build_witness :
  new full = Ok full_block
  ∧ ∃ rt,
      runtime_instructions unit ldcache_step full_block "0" = Ok rt
      ∧ head rt = Some (comment (Some "https://x/y/pkg-1.0.tar.gz") false)
      ∧ ∃ c front,
          shell None [c] ∈ rt
          ∧ commands full_block
            = front ++ [c; "rm -rf /var/tmp/pkg-1.0.tar.gz.src /var/tmp/pkg-1.0.tar.gz"].
Proof.
  split; [run|].
  destruct (at_sample runtime_matches_build full full_block "0" ltac:(run))
    as (rt & Hrt & Hhead & Hld).
  destruct (Hld eq_refl) as (c & front & Hin & Hcmd).
  exists rt. split; [exact Hrt|]. split; [exact Hhead|].
  exists c, front. split; [exact Hin|exact Hcmd].
Defined.

Lemma commands_ignore_environment_witness :
  new full = Ok full_block
  ∧ new full_other_environment = Ok full_other_environment_block
  ∧ commands full_other_environment_block = commands full_block.
Proof.
  split; [run|]. split; [run|].
  destruct (at_sample commands_ignore_environment full full_block None
              (Some [("PATH", "/usr/local/pkg/bin")])
              (Some [("--mount", "type=cache")]) ltac:(run))
    as (self' & Hnew' & Hcmd & _).
  assert (Ok self' = Ok full_other_environment_block) as [= ->].
  { rewrite <- Hnew'. run. }
  exact Hcmd.
Defined.

Lemma libdir_unused_without_ldconfig_witness :
  new minimal = Ok minimal_block
  ∧ ldconfig minimal_block = false
  ∧ new (set_libdir (Some None) minimal) = Ok minimal_no_libdir_block
  ∧ libdir minimal_no_libdir_block = None
  ∧ commands minimal_no_libdir_block = commands minimal_block
  ∧ runtime minimal_no_libdir_block "0" = runtime minimal_block "0".
Proof.
  split; [run|]. split; [run|]. split; [run|]. split; [run|].
  destruct (at_sample libdir_unused_without_ldconfig str minimal
              minimal_block (Some None) "0" ltac:(run) ltac:(run))
    as (self' & Hnew' & Hcmd & _ & Hrun).
  assert (Ok self' = Ok minimal_no_libdir_block) as [= ->].
  { rewrite <- Hnew'. run. }
  split; [exact Hcmd|exact Hrun].
Defined.

Lemma default_steps_witness :
  new archive_only = Ok archive_only_block
  ∧ commands archive_only_block
    = ["fetch https://x/y/pkg-1.0.tar.gz into /var/tmp";
       "cd build && cmake -DCMAKE_INSTALL_PREFIX=/usr/local /var/tmp/pkg-1.0.tar.gz.src";
       "make"; "make install";
       "rm -rf /var/tmp/pkg-1.0.tar.gz.src /var/tmp/pkg-1.0.tar.gz"].
Proof.
  split; [run|].
  pose proof (at_sample default_steps archive_only archive_only_block
                ltac:(run) eq_refl eq_refl eq_refl eq_refl eq_refl eq_refl
                eq_refl eq_refl eq_refl eq_refl) as H.
  vm_compute in H. exact H.
Defined.


Lemma absolute_libdir_replaces_prefix_witness :
  new (installed None true (Some (Some "/opt/lib")))
  = Ok absolute_libdir_block
  ∧ prefix absolute_libdir_block = Some "/usr/local"
  ∧ libdir absolute_libdir_block = Some "/opt/lib"
  ∧ "ldconfig /opt/lib" ∈ commands absolute_libdir_block.
Proof.
  split; [run|]. split; [run|]. split; [run|].
  destruct (at_sample absolute_libdir_replaces_prefix
              (installed None true (Some (Some "/opt/lib")))
              absolute_libdir_block "/usr/local" "/opt/lib"
              ltac:(run) ltac:(run) ltac:(run) ltac:(run)) as [Hin _].
  exact Hin.
Defined.

End MoreExamples.
